(** * Thermal label printer server: a shallow embedding and its properties

    The repository holds two variants of one Express service.  Variant A
    (the generic multi-copy label with item rows and a decorative barcode)
    and variant B (the single branded label with an inline logo).  Both
    expose [GET /print], build an order record from the query parameters
    and answer with one HTML document.

    JavaScript strings are embedded as [string], read as the UTF-8 bytes of
    the text.  Every character the program inspects (the five HTML special
    characters, [a-zA-Z0-9], the space, [%] and hexadecimal digits) is
    ASCII, so the byte view and the UTF-16 view agree on what the code
    does.  Values are the JSON-shaped values a query can carry; exceptions
    are explicit results. *)

From Stdlib Require Import String Ascii List ZArith Lia Bool Arith.
From Stdlib Require Import DecimalString.
Import ListNotations.
Local Open Scope string_scope.
Set Warnings "-register-all".

(** ** Exceptions *)

Inductive exn : Type :=
| TypeError
| RangeError
| SyntaxError
| URIError.

Inductive result (A : Type) : Type :=
| Ok (a : A)
| Throw (e : exn).

Arguments Ok {A} a.
Arguments Throw {A} e.

Definition bind {A B : Type} (c : result A) (k : A -> result B) : result B :=
  match c with
  | Ok a => k a
  | Throw e => Throw e
  end.

Notation "x <- c ;; k" := (bind c (fun x => k))
  (at level 61, c at next level, right associativity).

Fixpoint mapM {A B : Type} (f : A -> result B) (l : list A) : result (list B) :=
  match l with
  | [] => Ok []
  | x :: rest => y <- f x ;; ys <- mapM f rest ;; Ok (y :: ys)
  end.

(** ** Strings *)

(** The double quote, and a quoted attribute value. *)
Definition dq : string := String "034"%char EmptyString.
Definition q (s : string) : string := dq ++ s ++ dq.

(** [String.prototype.replace(/c/g, r)] for a one-character pattern. *)
Fixpoint replaceAll (c : ascii) (r : string) (s : string) : string :=
  match s with
  | EmptyString => EmptyString
  | String a rest =>
      if Ascii.eqb a c then r ++ replaceAll c r rest
      else String a (replaceAll c r rest)
  end.

(** [Array.prototype.join]. *)
Definition join (sep : string) (l : list string) : string := String.concat sep l.

(** Number of positions of [s] at which [p] occurs. *)
Fixpoint occurrences (p s : string) : nat :=
  match s with
  | EmptyString => 0
  | String _ rest => (if prefix p s then 1 else 0) + occurrences p rest
  end.

Definition includes (p s : string) : bool := negb (Nat.eqb (occurrences p s) 0).

(** Whether the character [c] occurs in [s]. *)
Fixpoint has_char (c : ascii) (s : string) : bool :=
  match s with
  | EmptyString => false
  | String a rest => Ascii.eqb a c || has_char c rest
  end.

Fixpoint filter_chars (f : ascii -> bool) (s : string) : string :=
  match s with
  | EmptyString => EmptyString
  | String a rest => if f a then String a (filter_chars f rest) else filter_chars f rest
  end.

Fixpoint map_chars (f : ascii -> ascii) (s : string) : string :=
  match s with
  | EmptyString => EmptyString
  | String a rest => String (f a) (map_chars f rest)
  end.

Definition in_range (lo hi : nat) (a : ascii) : bool :=
  Nat.leb lo (nat_of_ascii a) && Nat.leb (nat_of_ascii a) hi.

Definition is_digit (a : ascii) : bool := in_range 48 57 a.
Definition is_upper (a : ascii) : bool := in_range 65 90 a.
Definition is_lower (a : ascii) : bool := in_range 97 122 a.
Definition is_alnum (a : ascii) : bool := is_lower a || is_upper a || is_digit a.

(** ** Numbers

    A number is the exact decimal [m / 10^s].  This covers every integer and
    every JSON number literal; [Number_toString] prints it the way
    JavaScript prints the nearest double whenever the literal has at most
    15 significant digits and a magnitude in [1e-6, 1e21) (or is zero),
    where JavaScript uses plain positional notation. *)

Fixpoint normalize (m : Z) (s : nat) : Z * nat :=
  match s with
  | O => (m, O)
  | S s' => if (m mod 10 =? 0)%Z then normalize (m / 10) s' else (m, s)
  end.

Definition digits_of (n : Z) : string :=
  NilZero.string_of_uint (N.to_uint (Z.to_N n)).

Fixpoint zeros (n : nat) : string :=
  match n with
  | O => EmptyString
  | S n' => String "0"%char (zeros n')
  end.

Definition Number_toString (m : Z) (s : nat) : string :=
  let '(m', s') := normalize m s in
  let sign := if (m' <? 0)%Z then "-" else "" in
  let d := digits_of (Z.abs m') in
  match s' with
  | O => sign ++ d
  | _ =>
      let k := String.length d in
      if Nat.ltb s' k
      then sign ++ substring 0 (k - s') d ++ "." ++ substring (k - s') s' d
      else sign ++ "0." ++ zeros (s' - k) ++ d
  end.

(** ** Values *)

Inductive value : Type :=
| VUndefined
| VNull
| VBool (b : bool)
| VNum (m : Z) (s : nat)
| VStr (s : string)
| VArr (l : list value)
| VObj (fields : list (string * value)).

Definition VInt (n : Z) : value := VNum n 0.

(** Own-property lookup: the first binding of the key. *)
Fixpoint lookup (k : string) (fields : list (string * value)) : option value :=
  match fields with
  | [] => None
  | (k', v) :: rest => if String.eqb k' k then Some v else lookup k rest
  end.

Definition has_own (k : string) (fields : list (string * value)) : bool :=
  match lookup k fields with Some _ => true | None => false end.

(** [ToBoolean]. *)
Definition truthy (v : value) : bool :=
  match v with
  | VUndefined | VNull => false
  | VBool b => b
  | VNum m _ => negb (m =? 0)%Z
  | VStr s => negb (String.eqb s "")
  | VArr _ | VObj _ => true
  end.

(** [a || b]. *)
Definition or_else (a b : value) : value := if truthy a then a else b.

(** [ToString], as [String(v)] and template interpolation apply it.  An
    array prints its elements joined by commas, [null] and [undefined]
    elements as the empty string.  A plain object prints through
    [Object.prototype.toString] unless it has an own [toString] property: a
    parsed value is never callable, so the conversion then finds no
    primitive and throws. *)
Fixpoint ToString (v : value) : result string :=
  match v with
  | VUndefined => Ok "undefined"
  | VNull => Ok "null"
  | VBool true => Ok "true"
  | VBool false => Ok "false"
  | VNum m s => Ok (Number_toString m s)
  | VStr s => Ok s
  | VArr l =>
      parts <- (fix elems (l : list value) : result (list string) :=
                  match l with
                  | [] => Ok []
                  | x :: rest =>
                      a <- match x with
                           | VUndefined | VNull => Ok ""
                           | _ => ToString x
                           end ;;
                      b <- elems rest ;;
                      Ok (a :: b)
                  end) l ;;
      Ok (join "," parts)
  | VObj fields =>
      if has_own "toString" fields then Throw TypeError else Ok "[object Object]"
  end.

(** [v.k] for the property names this program reads ([name], [company],
    [quantity], [title], ...).  None of them is defined on a built-in
    prototype, an array index or [length], so only a plain object can hold
    one; reading any property of [null] or [undefined] throws. *)
Definition field (fields : list (string * value)) (k : string) : value :=
  match lookup k fields with
  | Some x => x
  | None => VUndefined
  end.

Definition Get (v : value) (k : string) : result value :=
  match v with
  | VUndefined | VNull => Throw TypeError
  | VObj fields => Ok (field fields k)
  | _ => Ok VUndefined
  end.

(** ** Built-ins: [parseInt] *)

Definition is_ws (a : ascii) : bool :=
  in_range 9 13 a || Nat.eqb (nat_of_ascii a) 32.

(** Leading white space as [parseInt] skips it: the ASCII white space and
    line terminators, and the UTF-8 forms of U+00A0, U+1680, U+2000-U+200A,
    U+2028, U+2029, U+202F, U+205F, U+3000 and U+FEFF. *)
Fixpoint trimStart (s : string) : string :=
  match s with
  | String a rest =>
      if is_ws a then trimStart rest
      else
        match rest with
        | String b rest2 =>
            if (Nat.eqb (nat_of_ascii a) 194 && Nat.eqb (nat_of_ascii b) 160)%bool
            then trimStart rest2
            else
              match rest2 with
              | String c rest3 =>
                  let x := nat_of_ascii a in
                  let y := nat_of_ascii b in
                  let z := nat_of_ascii c in
                  if (Nat.eqb x 225 && Nat.eqb y 154 && Nat.eqb z 128)
                     || (Nat.eqb x 226 && Nat.eqb y 128
                         && (Nat.leb 128 z && Nat.leb z 138
                             || Nat.eqb z 168 || Nat.eqb z 169 || Nat.eqb z 175))
                     || (Nat.eqb x 226 && Nat.eqb y 129 && Nat.eqb z 159)
                     || (Nat.eqb x 227 && Nat.eqb y 128 && Nat.eqb z 128)
                     || (Nat.eqb x 239 && Nat.eqb y 187 && Nat.eqb z 191)
                  then trimStart rest3
                  else s
              | _ => s
              end
        | _ => s
        end
  | EmptyString => s
  end.

Definition digit_value (radix : Z) (a : ascii) : option Z :=
  let n := Z.of_nat (nat_of_ascii a) in
  let d := if is_digit a then Some (n - 48)%Z
           else if is_lower a then Some (n - 87)%Z
           else if is_upper a then Some (n - 55)%Z
           else None in
  match d with
  | Some d => if (d <? radix)%Z then Some d else None
  | None => None
  end.

(** The longest prefix of digits, as a number; [None] when there is none. *)
Fixpoint parse_digits (radix : Z) (acc : option Z) (s : string) : option Z :=
  match s with
  | EmptyString => acc
  | String a rest =>
      match digit_value radix a with
      | Some d =>
          parse_digits radix
            (Some (radix * match acc with Some n => n | None => 0 end + d)%Z) rest
      | None => acc
      end
  end.

(** [parseInt] of a string, radix left out; [None] is [NaN].  Integers are
    exact (a double rounds them beyond 2^53, where the only use the program
    makes of the result, an array length, is out of range either way). *)
Definition parseInt_string (s : string) : option Z :=
  let s1 := trimStart s in
  let '(neg, s2) :=
    match s1 with
    | String "-"%char r => (true, r)
    | String "+"%char r => (false, r)
    | _ => (false, s1)
    end in
  let '(radix, s3) :=
    match s2 with
    | String "0"%char (String "x"%char r) => (16%Z, r)
    | String "0"%char (String "X"%char r) => (16%Z, r)
    | _ => (10%Z, s2)
    end in
  match parse_digits radix None s3 with
  | Some n => Some (if neg then (- n)%Z else n)
  | None => None
  end.

Definition parseInt (v : value) : result (option Z) :=
  s <- ToString v ;; Ok (parseInt_string s).

(** ** Built-ins: [Array(n)]

    [Array(n).fill(null)] as a list of [n] slots.  A length that is negative
    or above 2^32 - 1 throws a [RangeError].  Memory is not modelled: every
    valid length is served. *)
Definition Array_fill (n : Z) : result (list unit) :=
  if ((0 <=? n) && (n <? 4294967296))%Z
  then Ok (repeat tt (Z.to_nat n))
  else Throw RangeError.

(** ** Built-ins: [decodeURIComponent] *)

Definition hex_value (a : ascii) : option nat :=
  match digit_value 16 a with
  | Some d => Some (Z.to_nat d)
  | None => None
  end.

Inductive dphase : Type :=
| DPlain
| DHex1
| DHex2 (h : nat).

(** Decoder state: the phase within a [%XX] escape, the number of UTF-8
    continuation bytes still owed, and the range allowed for the next one
    (which rules out overlong forms, surrogates and code points above
    U+10FFFF). *)
Record dstate : Type := mk_dstate {
  phase : dphase;
  need : nat;
  lo : nat;
  hi : nat
}.

Definition lead_byte (b : nat) : option dstate :=
  if Nat.ltb b 128 then Some (mk_dstate DPlain 0 128 191)
  else if Nat.leb 194 b && Nat.leb b 223 then Some (mk_dstate DPlain 1 128 191)
  else if Nat.eqb b 224 then Some (mk_dstate DPlain 2 160 191)
  else if Nat.eqb b 237 then Some (mk_dstate DPlain 2 128 159)
  else if Nat.leb 225 b && Nat.leb b 239 then Some (mk_dstate DPlain 2 128 191)
  else if Nat.eqb b 240 then Some (mk_dstate DPlain 3 144 191)
  else if Nat.leb 241 b && Nat.leb b 243 then Some (mk_dstate DPlain 3 128 191)
  else if Nat.eqb b 244 then Some (mk_dstate DPlain 3 128 143)
  else None.

Fixpoint decode_from (st : dstate) (s : string) : result string :=
  match s with
  | EmptyString =>
      match phase st, need st with
      | DPlain, O => Ok EmptyString
      | _, _ => Throw URIError
      end
  | String a rest =>
      match phase st with
      | DPlain =>
          if Ascii.eqb a "%"%char
          then decode_from (mk_dstate DHex1 (need st) (lo st) (hi st)) rest
          else
            match need st with
            | O => out <- decode_from st rest ;; Ok (String a out)
            | S _ => Throw URIError
            end
      | DHex1 =>
          match hex_value a with
          | Some h => decode_from (mk_dstate (DHex2 h) (need st) (lo st) (hi st)) rest
          | None => Throw URIError
          end
      | DHex2 h =>
          match hex_value a with
          | Some l =>
              let b := 16 * h + l in
              match need st with
              | O =>
                  match lead_byte b with
                  | Some st' =>
                      out <- decode_from st' rest ;;
                      Ok (String (ascii_of_nat b) out)
                  | None => Throw URIError
                  end
              | S n =>
                  if Nat.leb (lo st) b && Nat.leb b (hi st)
                  then out <- decode_from (mk_dstate DPlain n 128 191) rest ;;
                       Ok (String (ascii_of_nat b) out)
                  else Throw URIError
              end
          | None => Throw URIError
          end
      end
  end.

Definition decodeURIComponent (v : value) : result string :=
  s <- ToString v ;; decode_from (mk_dstate DPlain 0 128 191) s.

(** ** Built-ins: [JSON.parse]

    A lexer over the characters and a stack machine over the tokens, both
    by structural recursion.  A run of characters that starts a literal or
    a number is lexed as one word and classified afterwards; in valid JSON
    such a run is always delimited by white space or punctuation, so the
    accepted language is the JSON grammar. *)

Inductive token : Type :=
| TLBrace
| TRBrace
| TLBracket
| TRBracket
| TColon
| TComma
| TString (s : string)
| TWord (w : string).

(** A string under construction holds raw bytes of the input and UTF-16
    code units written as [\uXXXX]. *)
Inductive schar : Type :=
| SByte (a : ascii)
| SUnit (u : N).

Definition utf8_encode (cp : N) : list ascii :=
  (if cp <? 128 then [ascii_of_N cp]
   else if cp <? 2048 then
     [ascii_of_N (192 + cp / 64); ascii_of_N (128 + cp mod 64)]
   else if cp <? 65536 then
     [ascii_of_N (224 + cp / 4096); ascii_of_N (128 + (cp / 64) mod 64);
      ascii_of_N (128 + cp mod 64)]
   else
     [ascii_of_N (240 + cp / 262144); ascii_of_N (128 + (cp / 4096) mod 64);
      ascii_of_N (128 + (cp / 64) mod 64); ascii_of_N (128 + cp mod 64)])%N.

Definition is_high_surrogate (u : N) : bool := ((55296 <=? u) && (u <=? 56319))%N.
Definition is_low_surrogate (u : N) : bool := ((56320 <=? u) && (u <=? 57343))%N.

(** The bytes of a lexed string; a surrogate pair becomes one code point,
    and a surrogate on its own is written in the three-byte form. *)
Fixpoint schars_bytes (l : list schar) : list ascii :=
  match l with
  | [] => []
  | SByte a :: rest => a :: schars_bytes rest
  | SUnit u :: rest =>
      match rest with
      | SUnit v :: rest2 =>
          if is_high_surrogate u && is_low_surrogate v
          then utf8_encode (65536 + (u - 55296) * 1024 + (v - 56320))%N
                 ++ schars_bytes rest2
          else utf8_encode u ++ schars_bytes rest
      | _ => utf8_encode u ++ schars_bytes rest
      end
  end.

Definition finish_string (rev_chars : list schar) : token :=
  TString (string_of_list_ascii (schars_bytes (rev rev_chars))).

Definition finish_word (rev_chars : list ascii) : token :=
  TWord (string_of_list_ascii (rev rev_chars)).

Inductive lmode : Type :=
| LIdle
| LWord (rev_chars : list ascii)
| LStr (rev_chars : list schar)
| LEsc (rev_chars : list schar)
| LHex (rev_chars : list schar) (todo : nat) (acc : N).

Definition is_json_ws (a : ascii) : bool :=
  let n := nat_of_ascii a in
  Nat.eqb n 32 || Nat.eqb n 9 || Nat.eqb n 10 || Nat.eqb n 13.

Definition is_word_char (a : ascii) : bool :=
  is_alnum a || Ascii.eqb a "-"%char || Ascii.eqb a "+"%char || Ascii.eqb a "."%char.

Definition punct (a : ascii) : option token :=
  if Ascii.eqb a "{"%char then Some TLBrace
  else if Ascii.eqb a "}"%char then Some TRBrace
  else if Ascii.eqb a "["%char then Some TLBracket
  else if Ascii.eqb a "]"%char then Some TRBracket
  else if Ascii.eqb a ":"%char then Some TColon
  else if Ascii.eqb a ","%char then Some TComma
  else None.

Definition escape_char (a : ascii) : option ascii :=
  if Ascii.eqb a "034"%char then Some "034"%char
  else if Ascii.eqb a "\"%char then Some "\"%char
  else if Ascii.eqb a "/"%char then Some "/"%char
  else if Ascii.eqb a "b"%char then Some "008"%char
  else if Ascii.eqb a "f"%char then Some "012"%char
  else if Ascii.eqb a "n"%char then Some "010"%char
  else if Ascii.eqb a "r"%char then Some "013"%char
  else if Ascii.eqb a "t"%char then Some "009"%char
  else None.

Fixpoint lex (mode : lmode) (s : string) : result (list token) :=
  match s with
  | EmptyString =>
      match mode with
      | LIdle => Ok []
      | LWord w => Ok [finish_word w]
      | _ => Throw SyntaxError
      end
  | String a rest =>
      match mode with
      | LIdle =>
          if is_json_ws a then lex LIdle rest
          else if Ascii.eqb a "034"%char then lex (LStr []) rest
          else if is_word_char a then lex (LWord [a]) rest
          else
            match punct a with
            | Some t => ts <- lex LIdle rest ;; Ok (t :: ts)
            | None => Throw SyntaxError
            end
      | LWord w =>
          if is_word_char a then lex (LWord (a :: w)) rest
          else if is_json_ws a then ts <- lex LIdle rest ;; Ok (finish_word w :: ts)
          else if Ascii.eqb a "034"%char
          then ts <- lex (LStr []) rest ;; Ok (finish_word w :: ts)
          else
            match punct a with
            | Some t => ts <- lex LIdle rest ;; Ok (finish_word w :: t :: ts)
            | None => Throw SyntaxError
            end
      | LStr cs =>
          if Ascii.eqb a "034"%char
          then ts <- lex LIdle rest ;; Ok (finish_string cs :: ts)
          else if Ascii.eqb a "\"%char then lex (LEsc cs) rest
          else if Nat.ltb (nat_of_ascii a) 32 then Throw SyntaxError
          else lex (LStr (SByte a :: cs)) rest
      | LEsc cs =>
          if Ascii.eqb a "u"%char then lex (LHex cs 4 0) rest
          else
            match escape_char a with
            | Some c => lex (LStr (SByte c :: cs)) rest
            | None => Throw SyntaxError
            end
      | LHex cs todo acc =>
          match hex_value a with
          | Some d =>
              let acc' := (16 * acc + N.of_nat d)%N in
              match todo with
              | S (S k) => lex (LHex cs (S k) acc') rest
              | _ => lex (LStr (SUnit acc' :: cs)) rest
              end
          | None => Throw SyntaxError
          end
      end
  end.

(** Numbers: an optional minus sign, an integer part without a leading
    zero (unless it is the single digit 0), an optional fraction of at least
    one digit, and an optional exponent with an optional sign. *)

Fixpoint span_digits (s : string) : string * string :=
  match s with
  | String a rest =>
      if is_digit a
      then let '(d, r) := span_digits rest in (String a d, r)
      else (EmptyString, s)
  | EmptyString => (EmptyString, EmptyString)
  end.

Definition nat_of_digits (d : string) : Z :=
  match parse_digits 10 None d with Some n => n | None => 0%Z end.

Definition parse_number (w : string) : option value :=
  let '(neg, w1) :=
    match w with
    | String "-"%char r => (true, r)
    | _ => (false, w)
    end in
  let '(ip, w2) := span_digits w1 in
  let int_ok :=
    match ip with
    | EmptyString => false
    | String "0"%char (String _ _) => false
    | _ => true
    end in
  let '(fp, w3, frac_ok) :=
    match w2 with
    | String "."%char r =>
        let '(f, r') := span_digits r in (f, r', negb (String.eqb f ""))
    | _ => (EmptyString, w2, true)
    end in
  let '(ex, w4, exp_ok) :=
    match w3 with
    | String c r =>
        if Ascii.eqb c "e"%char || Ascii.eqb c "E"%char then
          let '(eneg, r1) :=
            match r with
            | String "-"%char r' => (true, r')
            | String "+"%char r' => (false, r')
            | _ => (false, r)
            end in
          let '(e, r2) := span_digits r1 in
          ((if eneg then - nat_of_digits e else nat_of_digits e)%Z, r2,
           negb (String.eqb e ""))
        else (0%Z, w3, true)
    | EmptyString => (0%Z, w3, true)
    end in
  if int_ok && frac_ok && exp_ok && String.eqb w4 "" then
    let m := nat_of_digits (ip ++ fp) in
    let m := if neg then (- m)%Z else m in
    let e := (ex - Z.of_nat (String.length fp))%Z in
    if (0 <=? e)%Z
    then Some (VNum (m * 10 ^ e) 0)
    else let '(m', s') := normalize m (Z.to_nat (- e)) in Some (VNum m' s')
  else None.

Definition classify_word (w : string) : result value :=
  if String.eqb w "true" then Ok (VBool true)
  else if String.eqb w "false" then Ok (VBool false)
  else if String.eqb w "null" then Ok VNull
  else match parse_number w with
       | Some v => Ok v
       | None => Throw SyntaxError
       end.

(** A repeated key keeps its place and takes the later value. *)
Fixpoint set_field (k : string) (v : value) (fields : list (string * value))
  : list (string * value) :=
  match fields with
  | [] => [(k, v)]
  | (k', v') :: rest =>
      if String.eqb k' k then (k', v) :: rest else (k', v') :: set_field k v rest
  end.

Inductive frame : Type :=
| FArr (rev_items : list value)
| FObj (fields : list (string * value)) (key : string).

Inductive pstate : Type :=
| SValue (st : list frame)
| SArrStart (st : list frame)
| SObjStart (st : list frame)
| SKey (fields : list (string * value)) (st : list frame)
| SColon (fields : list (string * value)) (key : string) (st : list frame)
| SAfter (v : value) (st : list frame).

Definition start_value (t : token) (st : list frame) : result pstate :=
  match t with
  | TString s => Ok (SAfter (VStr s) st)
  | TWord w => v <- classify_word w ;; Ok (SAfter v st)
  | TLBracket => Ok (SArrStart st)
  | TLBrace => Ok (SObjStart st)
  | _ => Throw SyntaxError
  end.

Definition pstep (ps : pstate) (t : token) : result pstate :=
  match ps with
  | SValue st => start_value t st
  | SArrStart st =>
      match t with
      | TRBracket => Ok (SAfter (VArr []) st)
      | _ => start_value t (FArr [] :: st)
      end
  | SObjStart st =>
      match t with
      | TRBrace => Ok (SAfter (VObj []) st)
      | TString k => Ok (SColon [] k st)
      | _ => Throw SyntaxError
      end
  | SKey fields st =>
      match t with
      | TString k => Ok (SColon fields k st)
      | _ => Throw SyntaxError
      end
  | SColon fields k st =>
      match t with
      | TColon => Ok (SValue (FObj fields k :: st))
      | _ => Throw SyntaxError
      end
  | SAfter v st =>
      match st, t with
      | FArr items :: st', TComma => Ok (SValue (FArr (v :: items) :: st'))
      | FArr items :: st', TRBracket => Ok (SAfter (VArr (rev (v :: items))) st')
      | FObj fields k :: st', TComma => Ok (SKey (set_field k v fields) st')
      | FObj fields k :: st', TRBrace => Ok (SAfter (VObj (set_field k v fields)) st')
      | _, _ => Throw SyntaxError
      end
  end.

Fixpoint parse_tokens (ps : pstate) (ts : list token) : result value :=
  match ts with
  | [] =>
      match ps with
      | SAfter v [] => Ok v
      | _ => Throw SyntaxError
      end
  | t :: rest => ps' <- pstep ps t ;; parse_tokens ps' rest
  end.

Definition JSON_parse (text : string) : result value :=
  ts <- lex LIdle text ;; parse_tokens (SValue []) ts.

(** ** The clock

    [new Date()] reads the local calendar date and the time of day (in
    milliseconds since midnight) from the system clock. *)

Inductive month : Type :=
| Jan | Feb | Mar | Apr | May | Jun | Jul | Aug | Sep | Oct | Nov | Dec.

Record clock : Type := mk_clock {
  year : N;
  mon : month;
  day : N;
  millis_of_day : N
}.

Definition month_short (m : month) : string :=
  match m with
  | Jan => "Jan" | Feb => "Feb" | Mar => "Mar" | Apr => "Apr"
  | May => "May" | Jun => "Jun" | Jul => "Jul" | Aug => "Aug"
  | Sep => "Sep" | Oct => "Oct" | Nov => "Nov" | Dec => "Dec"
  end.

(** [toLocaleDateString('en-US', {year: 'numeric', month: 'short',
    day: 'numeric'})], for instance [Nov 1, 2026]. *)
Definition toLocaleDateString (c : clock) : string :=
  month_short (mon c) ++ " " ++ digits_of (Z.of_N (day c)) ++ ", "
  ++ digits_of (Z.of_N (year c)).

(** ** The request, the order and the response *)

(** [req.query]: a parameter that is absent is [VUndefined]; one that is
    given once is a string; the query parser builds arrays and objects from
    repeated and bracketed names. *)
Record query : Type := mk_query {
  orderId : value;
  orderName : value;
  labelCount : value;
  query_shippingAddress : value;
  query_lineItems : value
}.

Record order : Type := mk_order {
  id : value;
  name : value;
  shippingAddress : value;
  lineItems : value
}.

Record response : Type := mk_response {
  status : nat;
  headers : list (string * string);
  body : string
}.

(** What the client gets: the response the handler sent, or, when the
    handler threw, the framework's error response. *)
Inductive outcome : Type :=
| Sent (r : response)
| Uncaught (e : exn).

Definition status_of (o : outcome) : nat :=
  match o with
  | Sent r => status r
  | Uncaught _ => 500
  end.

Definition send (html_body : string) : response :=
  mk_response 200
    [("Content-Type", "text/html"); ("Access-Control-Allow-Origin", "*")]
    html_body.

(** The text of a template literal, with a backquote standing for each
    double quote of the source. *)
Definition html (s : string) : string :=
  map_chars (fun a => if Ascii.eqb a "`"%char then "034"%char else a) s.

(** ** Code shared by the two variants *)

(** [escapeHtml]: the five replacements in the order of the source. *)
Definition escapeHtml (text : value) : result string :=
  if negb (truthy text) then Ok ""
  else
    s <- ToString text ;;
    Ok (replaceAll "'"%char "&#039;"
          (replaceAll "034"%char "&quot;"
             (replaceAll ">"%char "&gt;"
                (replaceAll "<"%char "&lt;"
                   (replaceAll "&"%char "&amp;" s))))).

(** [JSON.parse(decodeURIComponent(v))]. *)
Definition parse_param (v : value) : result value :=
  s <- decodeURIComponent v ;; JSON_parse s.

(** The [try] block of the handler: the two parameters are read in turn
    inside one [try]; the [catch] logs the exception.  The result is the
    log, [shippingAddress] and [lineItems]. *)
Definition read_params (qr : query) : list exn * value * value :=
  let shippingAddress0 := VObj [] in
  let lineItems0 := VArr [] in
  match (if truthy (query_shippingAddress qr)
         then parse_param (query_shippingAddress qr)
         else Ok shippingAddress0) with
  | Throw e => ([e], shippingAddress0, lineItems0)
  | Ok sa =>
      match (if truthy (query_lineItems qr)
             then parse_param (query_lineItems qr)
             else Ok lineItems0) with
      | Throw e => ([e], sa, lineItems0)
      | Ok li => ([], sa, li)
      end
  end.

(** The order record handed to the renderer. *)
Definition build_order (qr : query) (sa li : value) : order :=
  mk_order (orderId qr) (or_else (orderName qr) (VStr "Order")) sa li.

(** * Variant A: the generic label *)

Module VariantA.

Definition rect (x width : Z) : string :=
  html "<rect x=`"
  ++ Number_toString x 0
  ++ html "` y=`5` width=`"
  ++ Number_toString width 0
  ++ html "` height=`30` fill=`black`/>".

(** The body of the [forEach]: push one bar and advance [x]. *)
Definition bar_step (st : Z * list string) (char : ascii) : Z * list string :=
  let '(x, lines) := st in
  let width := (Z.of_nat (nat_of_ascii char) mod 3 + 1)%Z in
  ((x + (width + 2))%Z, (lines ++ [rect x width])%list).

Definition generateBarcodeLines (text : value) : result string :=
  if negb (truthy text) then Ok ""
  else
    match text with
    | VStr s =>
        let chars := list_ascii_of_string (filter_chars is_alnum s) in
        let '(_, lines) := fold_left bar_step chars (10%Z, []) in
        Ok (join "" lines)
    | _ => Throw TypeError
    end.

Definition item_row (item : value) : result string :=
  quantity <- Get item "quantity" ;;
  quantity_text <- ToString (or_else quantity (VInt 1)) ;;
  title <- Get item "title" ;;
  item_name <- Get item "name" ;;
  title_html <- escapeHtml (or_else (or_else title item_name) (VStr "Item")) ;;
  Ok (html "
    <div class=`item-row`>
      <span class=`item-qty`>"
      ++ quantity_text
      ++ html "x</span>
      <span class=`item-name`>"
      ++ title_html
      ++ html "</span>
    </div>
  ").

(** [lineItems.slice(0, 5).map(...).join('')]: only an array has both
    methods. *)
Definition items_html (lineItems : value) : result string :=
  match lineItems with
  | VArr l => rows <- mapM item_row (firstn 5 l) ;; Ok (join "" rows)
  | _ => Throw TypeError
  end.

Definition length_of (lineItems : value) : Z :=
  match lineItems with
  | VArr l => Z.of_nat (List.length l)
  | _ => 0%Z
  end.

Definition more_items_html (moreItemsCount : Z) : string :=
  if (0 <? moreItemsCount)%Z
  then html "<div class=`more-items`>+ "
       ++ Number_toString moreItemsCount 0
       ++ html " more items</div>"
  else "".

(** The optional lines of the address block. *)
Definition optional_line (v : value) (before after : string) : result string :=
  if truthy v then e <- escapeHtml v ;; Ok (before ++ e ++ after) else Ok "".

(** One label, as the callback of [map] builds it. *)
Definition label (o : order) (sa : value) (formattedDate itemsHtml moreItemsHtml : string)
  : result string :=
  name1 <- escapeHtml (name o) ;;
  sa_name <- Get sa "name" ;;
  recipient <- escapeHtml (or_else sa_name (VStr "N/A")) ;;
  sa_company <- Get sa "company" ;;
  company <- optional_line sa_company (html "<div class=`company`>") "</div>" ;;
  sa_address1 <- Get sa "address1" ;;
  address1 <- escapeHtml (or_else sa_address1 (VStr "")) ;;
  sa_address2 <- Get sa "address2" ;;
  address2 <- optional_line sa_address2 (html "<div class=`street`>") "</div>" ;;
  sa_city <- Get sa "city" ;;
  city <- escapeHtml (or_else sa_city (VStr "")) ;;
  sa_provinceCode <- Get sa "provinceCode" ;;
  sa_province <- Get sa "province" ;;
  province <- escapeHtml (or_else (or_else sa_provinceCode sa_province) (VStr "")) ;;
  sa_zip <- Get sa "zip" ;;
  zip <- escapeHtml (or_else sa_zip (VStr "")) ;;
  sa_country <- Get sa "country" ;;
  country <- escapeHtml (or_else sa_country (VStr "")) ;;
  sa_phone <- Get sa "phone" ;;
  phone <- optional_line sa_phone (html "<div class=`phone`>Tel: ") "</div>" ;;
  barcode <- generateBarcodeLines (name o) ;;
  name2 <- escapeHtml (name o) ;;
  Ok (html "
    <div class=`label`>
      <!-- Header with Logo/Company -->
      <div class=`header`>
        <div class=`company-name`>SHIP TO</div>
        <div class=`order-info`>
          <div class=`order-number`>"
      ++ name1
      ++ html "</div>
          <div class=`order-date`>"
      ++ formattedDate
      ++ html "</div>
        </div>
      </div>

      <!-- Main Shipping Address -->
      <div class=`address-block`>
        <div class=`recipient-name`>"
      ++ recipient
      ++ html "</div>
        "
      ++ company
      ++ html "
        <div class=`street`>"
      ++ address1
      ++ html "</div>
        "
      ++ address2
      ++ html "
        <div class=`city-state-zip`>
          "
      ++ city
      ++ html ", "
      ++ province
      ++ html " "
      ++ zip
      ++ html "
        </div>
        <div class=`country`>"
      ++ country
      ++ html "</div>
        "
      ++ phone
      ++ html "
      </div>

      <!-- Divider -->
      <div class=`divider`></div>

      <!-- Package Contents Summary -->
      <div class=`contents-section`>
        <div class=`contents-title`>PACKAGE CONTENTS</div>
        <div class=`items-list`>
          "
      ++ itemsHtml
      ++ html "
          "
      ++ moreItemsHtml
      ++ html "
        </div>
      </div>

      <!-- Footer with Barcode placeholder -->
      <div class=`footer`>
        <div class=`barcode-area`>
          <svg class=`barcode-placeholder` viewBox=`0 0 200 40`>
            "
      ++ barcode
      ++ html "
          </svg>
          <div class=`barcode-text`>"
      ++ name2
      ++ html "</div>
        </div>
      </div>
    </div>
  ").

Definition page_break : string := html "<div class=`page-break`></div>".

Definition document (title labelsHtml : string) : string :=
  html "<!DOCTYPE html>
<html lang=`en`>
<head>
  <meta charset=`UTF-8`>
  <meta name=`viewport` content=`width=device-width, initial-scale=1.0`>
  <title>Shipping Label - "
  ++ title
  ++ html "</title>
  <style>
    @page {
      size: 4in 6in;
      margin: 0;
    }

    * {
      box-sizing: border-box;
      margin: 0;
      padding: 0;
    }

    body {
      font-family: 'Arial', 'Helvetica', sans-serif;
      font-size: 12px;
      line-height: 1.3;
      color: #000;
      background: #fff;
    }

    .label {
      width: 4in;
      height: 6in;
      padding: 0.2in;
      display: flex;
      flex-direction: column;
      page-break-after: always;
      background: #fff;
    }

    .page-break {
      page-break-after: always;
      height: 0;
    }

    /* Header */
    .header {
      display: flex;
      justify-content: space-between;
      align-items: flex-start;
      padding-bottom: 0.15in;
      border-bottom: 2px solid #000;
      margin-bottom: 0.15in;
    }

    .company-name {
      font-size: 14px;
      font-weight: bold;
      letter-spacing: 1px;
    }

    .order-info {
      text-align: right;
    }

    .order-number {
      font-size: 16px;
      font-weight: bold;
    }

    .order-date {
      font-size: 10px;
      color: #333;
    }

    /* Address Block */
    .address-block {
      flex: 1;
      padding: 0.1in 0;
    }

    .recipient-name {
      font-size: 18px;
      font-weight: bold;
      margin-bottom: 4px;
      text-transform: uppercase;
    }

    .company {
      font-size: 14px;
      margin-bottom: 2px;
    }

    .street {
      font-size: 14px;
      margin-bottom: 2px;
    }

    .city-state-zip {
      font-size: 14px;
      font-weight: bold;
      margin-bottom: 2px;
    }

    .country {
      font-size: 12px;
      margin-bottom: 4px;
    }

    .phone {
      font-size: 11px;
      color: #333;
    }

    /* Divider */
    .divider {
      height: 1px;
      background: #ccc;
      margin: 0.1in 0;
    }

    /* Contents Section */
    .contents-section {
      padding: 0.1in 0;
      max-height: 1.5in;
      overflow: hidden;
    }

    .contents-title {
      font-size: 10px;
      font-weight: bold;
      letter-spacing: 0.5px;
      margin-bottom: 4px;
      color: #666;
    }

    .items-list {
      font-size: 10px;
    }

    .item-row {
      display: flex;
      gap: 4px;
      margin-bottom: 2px;
    }

    .item-qty {
      font-weight: bold;
      min-width: 25px;
    }

    .item-name {
      flex: 1;
      white-space: nowrap;
      overflow: hidden;
      text-overflow: ellipsis;
    }

    .more-items {
      font-style: italic;
      color: #666;
      margin-top: 4px;
    }

    /* Footer */
    .footer {
      margin-top: auto;
      padding-top: 0.1in;
      border-top: 1px solid #ccc;
    }

    .barcode-area {
      text-align: center;
    }

    .barcode-placeholder {
      width: 100%;
      max-width: 200px;
      height: 40px;
    }

    .barcode-text {
      font-size: 10px;
      font-family: monospace;
      margin-top: 2px;
    }

    /* Print-specific styles */
    @media print {
      body {
        -webkit-print-color-adjust: exact;
        print-color-adjust: exact;
      }
      
      .label {
        page-break-inside: avoid;
      }
    }
  </style>
</head>
<body>
  "
  ++ labelsHtml
  ++ html "
</body>
</html>".

Definition generateThermalLabelHtml (now : clock) (o : order) (copies : Z)
  : result string :=
  let sa := or_else (shippingAddress o) (VObj []) in
  let li := or_else (lineItems o) (VArr []) in
  let formattedDate := toLocaleDateString now in
  itemsHtml <- items_html li ;;
  let moreItemsCount := (length_of li - 5)%Z in
  let moreItemsHtml := more_items_html moreItemsCount in
  slots <- Array_fill copies ;;
  labels <- mapM (fun _ => label o sa formattedDate itemsHtml moreItemsHtml) slots ;;
  let labelsHtml := join page_break labels in
  title <- escapeHtml (name o) ;;
  Ok (document title labelsHtml).

(** [parseInt(labelCount) || 1], with [labelCount] defaulting to 1. *)
Definition copies_of (labelCount : value) : result Z :=
  let labelCount := match labelCount with VUndefined => VInt 1 | v => v end in
  n <- parseInt labelCount ;;
  Ok (match n with
      | Some k => if (k =? 0)%Z then 1%Z else k
      | None => 1%Z
      end).

(** [app.get('/print', ...)]: the log of [console.error] and the outcome. *)
Definition print (now : clock) (qr : query) : list exn * outcome :=
  let '(log, sa, li) := read_params qr in
  let o := build_order qr sa li in
  (log,
   match (copies <- copies_of (labelCount qr) ;;
          generateThermalLabelHtml now o copies) with
   | Ok html_body => Sent (send html_body)
   | Throw e => Uncaught e
   end).

End VariantA.

(** * Variant B: the branded label *)

Module VariantB.

(** [s.split(' ')[0]]: the text before the first space. *)
Fixpoint first_token (s : string) : string :=
  match s with
  | EmptyString => EmptyString
  | String a rest =>
      if Ascii.eqb a " "%char then EmptyString else String a (first_token rest)
  end.

(** [toUpperCase] on the ASCII letters; other bytes are left as they are. *)
Definition upper_char (a : ascii) : ascii :=
  if is_lower a then ascii_of_nat (nat_of_ascii a - 32) else a.

Definition toUpperCase (v : value) : result string :=
  match v with
  | VStr s => Ok (map_chars upper_char s)
  | _ => Throw TypeError
  end.

(** [shippingAddress.firstName ||
    (shippingAddress.name ? shippingAddress.name.split(' ')[0] : 'Customer')]. *)
Definition first_name (sa : value) : result value :=
  sa_firstName <- Get sa "firstName" ;;
  if truthy sa_firstName then Ok sa_firstName
  else
    sa_name <- Get sa "name" ;;
    if truthy sa_name then
      match sa_name with
      | VStr s => Ok (VStr (first_token s))
      | _ => Throw TypeError
      end
    else Ok (VStr "Customer").

Definition document (title customer logoBase64 formattedDate order_name : string)
  : string :=
  html "<!DOCTYPE html>
<html lang=`en`>
<head>
  <meta charset=`UTF-8`>
  <meta name=`viewport` content=`width=device-width, initial-scale=1.0`>
  <title>Shipping Label - "
  ++ title
  ++ html "</title>
  <style>
    @page {
      size: 4in 6in;
      margin: 0;
    }

    * {
      box-sizing: border-box;
      margin: 0;
      padding: 0;
    }

    body {
      font-family: 'Arial', 'Helvetica', sans-serif;
      background: #fff;
    }

    .label {
      width: 4in;
      height: 6in;
      padding: 0.3in 0.25in;
      background: #fff;
      display: flex;
      flex-direction: column;
      align-items: center;
    }

    /* Top line decoration */
    .top-line {
      width: 60px;
      height: 4px;
      background: #000;
      margin-bottom: 0.2in;
    }

    /* Thank you section */
    .thank-you {
      text-align: center;
      margin-bottom: 0.35in;
    }

    .thank-you-text {
      font-size: 16px;
      letter-spacing: 4px;
      font-weight: 400;
      margin-bottom: 2px;
    }

    .customer-name {
      font-size: 22px;
      letter-spacing: 4px;
      font-weight: 400;
    }

    /* Logo section */
    .logo-section {
      display: flex;
      flex-direction: column;
      align-items: center;
      flex: 1;
      justify-content: center;
    }

    .logo {
      width: 120px;
      height: 120px;
      margin-bottom: 0.15in;
    }

    .brand-name {
      font-size: 36px;
      font-weight: bold;
      letter-spacing: 1px;
    }

    /* Order info */
    .order-info {
      display: flex;
      justify-content: space-between;
      width: 100%;
      margin-top: auto;
      margin-bottom: 0.25in;
      font-size: 14px;
    }

    .date {
      font-weight: 400;
    }

    .order-number {
      font-weight: 400;
    }

    /* Footer */
    .footer {
      display: flex;
      justify-content: center;
      gap: 0.25in;
      width: 100%;
      padding-top: 0.15in;
      border-top: 1px solid #eee;
    }

    .social-item {
      display: flex;
      align-items: center;
      gap: 4px;
      font-size: 11px;
    }

    .social-icon {
      width: 16px;
      height: 16px;
    }

    @media print {
      body {
        -webkit-print-color-adjust: exact;
        print-color-adjust: exact;
      }
    }
  </style>
</head>
<body>
  <div class=`label`>
    <!-- Top line decoration -->
    <div class=`top-line`></div>
    
    <!-- Thank you message -->
    <div class=`thank-you`>
      <div class=`thank-you-text`>THANK YOU,</div>
      <div class=`customer-name`>"
  ++ customer
  ++ html "</div>
    </div>

    <!-- Logo -->
    <div class=`logo-section`>
      <img class=`logo` src=`data:image/png;base64,"
  ++ logoBase64
  ++ html "` alt=`AD-Bits Logo` />
      <div class=`brand-name`>AD-Bits</div>
    </div>

    <!-- Order info -->
    <div class=`order-info`>
      <div class=`date`>"
  ++ formattedDate
  ++ html "</div>
      <div class=`order-number`>Order "
  ++ order_name
  ++ html "</div>
    </div>

    <!-- Footer with social -->
    <div class=`footer`>
      <div class=`social-item`>
        <svg class=`social-icon` viewBox=`0 0 24 24` fill=`black`>
          <path d=`M12 2.163c3.204 0 3.584.012 4.85.07 3.252.148 4.771 1.691 4.919 4.919.058 1.265.069 1.645.069 4.849 0 3.205-.012 3.584-.069 4.849-.149 3.225-1.664 4.771-4.919 4.919-1.266.058-1.644.07-4.85.07-3.204 0-3.584-.012-4.849-.07-3.26-.149-4.771-1.699-4.919-4.92-.058-1.265-.07-1.644-.07-4.849 0-3.204.013-3.583.07-4.849.149-3.227 1.664-4.771 4.919-4.919 1.266-.057 1.645-.069 4.849-.069zm0-2.163c-3.259 0-3.667.014-4.947.072-4.358.2-6.78 2.618-6.98 6.98-.059 1.281-.073 1.689-.073 4.948 0 3.259.014 3.668.072 4.948.2 4.358 2.618 6.78 6.98 6.98 1.281.058 1.689.072 4.948.072 3.259 0 3.668-.014 4.948-.072 4.354-.2 6.782-2.618 6.979-6.98.059-1.28.073-1.689.073-4.948 0-3.259-.014-3.667-.072-4.947-.196-4.354-2.617-6.78-6.979-6.98-1.281-.059-1.69-.073-4.949-.073zm0 5.838c-3.403 0-6.162 2.759-6.162 6.162s2.759 6.163 6.162 6.163 6.162-2.759 6.162-6.163c0-3.403-2.759-6.162-6.162-6.162zm0 10.162c-2.209 0-4-1.79-4-4 0-2.209 1.791-4 4-4s4 1.791 4 4c0 2.21-1.791 4-4 4zm6.406-11.845c-.796 0-1.441.645-1.441 1.44s.645 1.44 1.441 1.44c.795 0 1.439-.645 1.439-1.44s-.644-1.44-1.439-1.44z`/>
        </svg>
        <span>@adbits3d</span>
      </div>
      <div class=`social-item`>
        <svg class=`social-icon` viewBox=`0 0 24 24` fill=`black`>
          <circle cx=`12` cy=`12` r=`10` stroke=`black` stroke-width=`2` fill=`none`/>
          <path d=`M2 12h20M12 2c-2.5 2.5-4 5.5-4 10s1.5 7.5 4 10c2.5-2.5 4-5.5 4-10s-1.5-7.5-4-10z` stroke=`black` stroke-width=`1.5` fill=`none`/>
        </svg>
        <span>adbits.ca</span>
      </div>
      <div class=`social-item`>
        <svg class=`social-icon` viewBox=`0 0 24 24` fill=`black`>
          <path d=`M24 12.073c0-6.627-5.373-12-12-12s-12 5.373-12 12c0 5.99 4.388 10.954 10.125 11.854v-8.385H7.078v-3.47h3.047V9.43c0-3.007 1.792-4.669 4.533-4.669 1.312 0 2.686.235 2.686.235v2.953H15.83c-1.491 0-1.956.925-1.956 1.874v2.25h3.328l-.532 3.47h-2.796v8.385C19.612 23.027 24 18.062 24 12.073z`/>
        </svg>
        <span>AD-Bits</span>
      </div>
    </div>
  </div>
</body>
</html>".

(** [logoBase64] is the module-level variable set once at start-up: the
    base64 text of the logo file, or the empty string when it could not be
    read. *)
Definition generateThermalLabelHtml (logoBase64 : string) (now : clock) (o : order)
  : result string :=
  let sa := or_else (shippingAddress o) (VObj []) in
  firstName <- first_name sa ;;
  let formattedDate := toLocaleDateString now in
  title <- escapeHtml (name o) ;;
  upper <- toUpperCase firstName ;;
  customer <- escapeHtml (VStr upper) ;;
  order_name <- escapeHtml (name o) ;;
  Ok (document title customer logoBase64 formattedDate order_name).

(** [app.get('/print', ...)]: [labelCount] is bound and never used. *)
Definition print (logoBase64 : string) (now : clock) (qr : query)
  : list exn * outcome :=
  let '(log, sa, li) := read_params qr in
  let o := build_order qr sa li in
  (log,
   match generateThermalLabelHtml logoBase64 now o with
   | Ok html_body => Sent (send html_body)
   | Throw e => Uncaught e
   end).

End VariantB.

(** * The query parser of the framework

    The framework splits the query string of the URL into raw name/value
    pairs and decodes each value once before the handler sees it: a [+] is
    a space, [%XX] escapes are decoded, and a value that does not decode is
    kept as it is.  A name given several times yields an array.  (Bracketed
    names, which yield nested objects, are not split here; every statement
    below that ranges over [query] covers them.) *)

Definition qs_decode (raw : string) : string :=
  let s := map_chars (fun a => if Ascii.eqb a "+"%char then " "%char else a) raw in
  match decode_from (mk_dstate DPlain 0 128 191) s with
  | Ok d => d
  | Throw _ => s
  end.

Definition qs_param (k : string) (raw : list (string * string)) : value :=
  match filter (fun kv => String.eqb (fst kv) k) raw with
  | [] => VUndefined
  | [kv] => VStr (qs_decode (snd kv))
  | kvs => VArr (map (fun kv => VStr (qs_decode (snd kv))) kvs)
  end.

Definition req_query (raw : list (string * string)) : query :=
  mk_query (qs_param "orderId" raw) (qs_param "orderName" raw)
    (qs_param "labelCount" raw) (qs_param "shippingAddress" raw)
    (qs_param "lineItems" raw).

(** * The logo of variant B

    At start-up the logo file is read and kept as base64 text; when the
    file cannot be read the text stays empty. *)

Definition base64_char (n : nat) : ascii :=
  if Nat.ltb n 26 then ascii_of_nat (65 + n)
  else if Nat.ltb n 52 then ascii_of_nat (97 + (n - 26))
  else if Nat.ltb n 62 then ascii_of_nat (48 + (n - 52))
  else if Nat.eqb n 62 then "+"%char
  else "/"%char.

Fixpoint base64 (bytes : list ascii) : string :=
  match bytes with
  | [] => ""
  | [a] =>
      let x := nat_of_ascii a in
      String (base64_char (x / 4))
        (String (base64_char ((x mod 4) * 16)) "==")
  | [a; b] =>
      let x := nat_of_ascii a in
      let y := nat_of_ascii b in
      String (base64_char (x / 4))
        (String (base64_char ((x mod 4) * 16 + y / 16))
           (String (base64_char ((y mod 16) * 4)) "="))
  | a :: b :: c :: rest =>
      let x := nat_of_ascii a in
      let y := nat_of_ascii b in
      let z := nat_of_ascii c in
      String (base64_char (x / 4))
        (String (base64_char ((x mod 4) * 16 + y / 16))
           (String (base64_char ((y mod 16) * 4 + z / 64))
              (String (base64_char (z mod 64)) (base64 rest))))
  end.

(** [logoBase64] after start-up: [file] is the content of the logo file,
    or [None] when reading it failed. *)
Definition load_logo (file : option (list ascii)) : string :=
  match file with
  | Some bytes => base64 bytes
  | None => ""
  end.

(** * Specification vocabulary *)

(** ** Occurrences of a marker *)

(** [counted p s n]: [s] holds [n] occurrences of [p], and no occurrence
    starts in [s] and runs over its end, whatever follows. *)
Definition counted (p s : string) (n : nat) : Prop :=
  forall rest, occurrences p (s ++ rest) = n + occurrences p rest.

(** A fixed text is [tight] for [p] when none of its proper suffixes
    shorter than [p] begins an occurrence of [p]. *)
Fixpoint tight (p f : string) : bool :=
  match f with
  | EmptyString => true
  | String _ rest =>
      (Nat.leb (String.length p) (String.length f) || negb (prefix f p))
      && tight p rest
  end.

(** The opening tags that mark a label, an item row and the note on further
    items, and the start of a bar. *)
Definition label_open : string := "<div class=" ++ q "label" ++ ">".
Definition rect_open : string := "<rect ".

(** The notes one label holds: [n_more] when the list is longer than 5. *)
Definition more_count (n_more len : nat) : nat :=
  if Nat.ltb 5 len then n_more else 0.

(** ** Escaped text *)

(** What [escapeHtml] writes for one character. *)
Definition entity (a : ascii) : string :=
  if Ascii.eqb a "&"%char then "&amp;"
  else if Ascii.eqb a "<"%char then "&lt;"
  else if Ascii.eqb a ">"%char then "&gt;"
  else if Ascii.eqb a "034"%char then "&quot;"
  else if Ascii.eqb a "'"%char then "&#039;"
  else String a EmptyString.

(** A text with every character replaced by its [entity]. *)
Fixpoint escape_text (s : string) : string :=
  match s with
  | EmptyString => EmptyString
  | String a rest => entity a ++ escape_text rest
  end.

(** The characters that must not reach the document raw (the ampersand
    remains, as the first character of every entity). *)
Definition is_special (c : ascii) : bool :=
  Ascii.eqb c "<"%char || Ascii.eqb c ">"%char || Ascii.eqb c "034"%char
  || Ascii.eqb c "'"%char.

Fixpoint all_chars (f : ascii -> bool) (s : string) : bool :=
  match s with
  | EmptyString => true
  | String a rest => f a && all_chars f rest
  end.

Definition is_number_char (a : ascii) : bool :=
  is_digit a || Ascii.eqb a "-"%char || Ascii.eqb a "."%char.

(** ** The bars of the barcode *)

(** The characters of the name that get a bar, and the width of a bar. *)
Definition alnum_chars (s : string) : list ascii :=
  list_ascii_of_string (filter_chars is_alnum s).

Definition bar_width (c : ascii) : Z := (Z.of_nat (nat_of_ascii c) mod 3 + 1)%Z.

(** The bars as the specification words them: the k-th bar is as wide as
    its character says and stands at 10 plus the advances (width + 2) of
    the bars before it. *)
Definition bar_x (chars : list ascii) (k : nat) : Z :=
  (10 + fold_right (fun c acc => bar_width c + 2 + acc) 0 (firstn k chars))%Z.

(** The bars, as pairs of [x] and width. *)
Definition spec_bars (chars : list ascii) : list (Z * Z) :=
  map (fun k => (bar_x chars k, bar_width (nth k chars "000"%char)))
    (seq 0 (List.length chars)).

(** One bar, with the quotes of the markup written out. *)
Definition bar_svg (b : Z * Z) : string :=
  "<rect x=" ++ q (Number_toString (fst b) 0) ++ " y=" ++ q "5"
  ++ " width=" ++ q (Number_toString (snd b) 0) ++ " height=" ++ q "30"
  ++ " fill=" ++ q "black" ++ "/>".

(** The same bars by recursion, as the loop of the source visits them. *)
Fixpoint bars_from (x : Z) (chars : list ascii) : list (Z * Z) :=
  match chars with
  | [] => []
  | c :: rest => (x, bar_width c) :: bars_from (x + (bar_width c + 2)) rest
  end.

(** ** Item rows *)

(** The text an item row shows for the quantity. *)
Definition quantity_text (item : value) : result string :=
  quantity <- Get item "quantity" ;; ToString (or_else quantity (VInt 1)).

(** The quantity of the item prints without [<]. *)
Definition plain_quantity (item : value) : Prop :=
  forall t, quantity_text item = Ok t -> has_char "<"%char t = false.

(** A row, with the quotes of the markup written out: the quantity followed
    by [x], then the title. *)
Definition row_markup (quantity title : string) : string :=
  "
    <div class=" ++ q "item-row" ++ ">
      <span class=" ++ q "item-qty" ++ ">" ++ quantity ++ "x</span>
      <span class=" ++ q "item-name" ++ ">" ++ title ++ "</span>
    </div>
  ".

(** The title an item row shows: the title, else the name, else [Item],
    escaped. *)
Definition title_html (item : value) : result string :=
  title <- Get item "title" ;;
  item_name <- Get item "name" ;;
  escapeHtml (or_else (or_else title item_name) (VStr "Item")).

(** The row of an item, from what it shows. *)
Definition spec_row (item : value) : result string :=
  quantity <- quantity_text item ;;
  title <- title_html item ;;
  Ok (row_markup quantity title).


(** An object without its property [k]. *)
Definition without_field (k : string) (fields : list (string * value))
  : list (string * value) :=
  filter (fun kv => negb (String.eqb (fst kv) k)) fields.

(** Seven line items, the example of the specification. *)
Definition seven_items : list value :=
  map (fun n => VObj [("quantity", VInt n); ("title", VStr "Widget")])
    [1; 2; 3; 4; 5; 6; 7]%Z.

(** ** Well-typed orders

    The data model of the service: the fields of an address are optional
    strings; a line item has an optional numeric quantity and optional
    string title and name. *)

Definition is_text (v : value) : bool :=
  match v with
  | VUndefined | VNull | VStr _ => true
  | _ => false
  end.

Definition is_string (v : value) : bool :=
  match v with
  | VStr _ => true
  | _ => false
  end.

Definition is_number (v : value) : bool :=
  match v with
  | VNum _ _ => true
  | _ => false
  end.

Definition text_of (v : value) : string :=
  match v with
  | VStr s => s
  | _ => ""
  end.

Definition address_fields : list string :=
  ["name"; "firstName"; "company"; "address1"; "address2"; "city";
   "provinceCode"; "province"; "zip"; "country"; "phone"].

Definition typed_address (sa : value) : bool :=
  match sa with
  | VObj f => forallb (fun k => is_text (field f k)) address_fields
  | _ => false
  end.

Definition typed_quantity (v : value) : bool := negb (truthy v) || is_number v.

Definition typed_item (item : value) : bool :=
  match item with
  | VObj f =>
      typed_quantity (field f "quantity") && is_text (field f "title")
      && is_text (field f "name")
  | _ => false
  end.

Definition typed_items (li : value) : bool :=
  match li with
  | VArr l => forallb typed_item l
  | _ => false
  end.

Definition typed_order (o : order) : bool :=
  is_string (name o) && typed_address (shippingAddress o)
  && typed_items (lineItems o).

(** The lengths [Array(n)] accepts. *)
Definition valid_length (n : Z) : bool := ((0 <=? n) && (n <? 4294967296))%Z.

(** ** Requests *)

(** The same request with another [labelCount], and without [lineItems]. *)
Definition with_labelCount (lc : value) (qr : query) : query :=
  mk_query (orderId qr) (orderName qr) lc (query_shippingAddress qr)
    (query_lineItems qr).

Definition without_lineItems (qr : query) : query :=
  mk_query (orderId qr) (orderName qr) (labelCount qr)
    (query_shippingAddress qr) VUndefined.

(** The parameter is present and reading it throws [e]. *)
Definition malformed (v : value) (e : exn) : Prop :=
  truthy v = true /\ parse_param v = Throw e.

Definition sample_clock : clock := mk_clock 2026 Nov 1 0.

(** The end-to-end example of the specification, as the framework hands it
    to the handler, and the order the handler builds from it. *)
Definition example_query : query :=
  req_query [("orderName", "%231001"); ("labelCount", "2");
             ("shippingAddress",
              "%7B%22name%22%3A%22Jane%20Doe%22%2C%22city%22%3A%22Ottawa%22%7D")].

Definition example_address : value :=
  VObj [("name", VStr "Jane Doe"); ("city", VStr "Ottawa")].

Definition example_order : order :=
  mk_order VUndefined (VStr "#1001") example_address (VArr []).

(** A request whose only line item has markup as its quantity and as its
    title. *)
Definition script_query : query :=
  req_query
    [("lineItems",
      "%5B%7B%22quantity%22%3A%22%3Cscript%3Ealert(1)%3C%2Fscript%3E%22%2C%22title%22%3A%22%3Cb%3E%22%7D%5D")].

(** ** Further vocabulary *)

(** The characters [escapeHtml] rewrites. *)
Definition needs_escape (a : ascii) : bool :=
  Ascii.eqb a "&"%char || is_special a.

Definition is_plain (s : string) : bool :=
  all_chars (fun a => negb (needs_escape a)) s.

Definition only_TypeError {A : Type} (r : result A) : Prop :=
  forall e, r = Throw e -> e = TypeError.

(** The same request with another [orderId] or [orderName]; the same order
    with another address or other line items. *)
Definition with_orderId (v : value) (qr : query) : query :=
  mk_query v (orderName qr) (labelCount qr) (query_shippingAddress qr)
    (query_lineItems qr).

Definition with_orderName (v : value) (qr : query) : query :=
  mk_query (orderId qr) v (labelCount qr) (query_shippingAddress qr)
    (query_lineItems qr).

Definition with_address (sa : value) (o : order) : order :=
  mk_order (id o) (name o) sa (lineItems o).

Definition with_items (li : value) (o : order) : order :=
  mk_order (id o) (name o) (shippingAddress o) li.

Definition is_object (v : value) : bool :=
  match v with
  | VObj _ => true
  | _ => false
  end.

Definition is_nullish (v : value) : bool :=
  match v with
  | VUndefined | VNull => true
  | _ => false
  end.




(** The text variant B greets: [firstName] when it is truthy, else the
    first word of [name] when that is truthy, else [Customer]; [None] when
    the value chosen is no string. *)
Definition customer (f : list (string * value)) : option string :=
  if truthy (field f "firstName") then
    match field f "firstName" with
    | VStr s => Some s
    | _ => None
    end
  else if truthy (field f "name") then
    match field f "name" with
    | VStr s => Some (VariantB.first_token s)
    | _ => None
    end
  else Some "Customer".

(** The characters of base64 text. *)
Definition is_base64_char (a : ascii) : bool :=
  is_alnum a || Ascii.eqb a "+"%char || Ascii.eqb a "/"%char
  || Ascii.eqb a "="%char.

Definition script_open : string := "<script".

(** The opening tags of the lines for the company, the street and the
    telephone. *)
Definition company_open : string := "<div class=" ++ q "company" ++ ">".
Definition street_open : string := "<div class=" ++ q "street" ++ ">".
Definition phone_open : string := "<div class=" ++ q "phone" ++ ">".

(** * Lemmas *)

(** ** String lemmas *)

Lemma append_nil_r (s : string) : s ++ "" = s.
Proof. induction s as [|a s IH]; simpl; [reflexivity | now rewrite IH]. Qed.

Lemma append_assoc (a b c : string) : (a ++ b) ++ c = a ++ b ++ c.
Proof. induction a as [|x a IH]; simpl; [reflexivity | now rewrite IH]. Qed.

Lemma length_append (a b : string) :
  String.length (a ++ b) = String.length a + String.length b.
Proof. induction a as [|x a IH]; simpl; [reflexivity | now rewrite IH]. Qed.

Lemma has_char_append (c : ascii) (a b : string) :
  has_char c (a ++ b) = has_char c a || has_char c b.
Proof.
  induction a as [|x a IH]; simpl; [reflexivity|].
  now rewrite IH, orb_assoc.
Qed.

Lemma prefix_nil (s : string) : prefix "" s = true.
Proof. destruct s; reflexivity. Qed.

(** Once [f] is at least as long as [p], what follows [f] is not looked at. *)
Lemma prefix_append_long (p f s : string) :
  String.length p <= String.length f -> prefix p (f ++ s) = prefix p f.
Proof.
  revert f; induction p as [|a p IH]; intros f Hlen.
  - now rewrite !prefix_nil.
  - destruct f as [|b f]; simpl in Hlen; [lia|].
    simpl. destruct (ascii_dec a b); [apply IH; lia | reflexivity].
Qed.

(** A match of [p] that starts in a shorter [f] makes [f] a prefix of [p]. *)
Lemma prefix_append_short (p f s : string) :
  prefix p (f ++ s) = true -> String.length f < String.length p ->
  prefix f p = true.
Proof.
  revert f; induction p as [|a p IH]; intros f Hp Hlen.
  - simpl in Hlen; lia.
  - destruct f as [|b f]; [reflexivity|].
    simpl in *. destruct (ascii_dec a b) as [->|]; [|discriminate].
    destruct (ascii_dec b b); [|congruence]. apply IH; [assumption | lia].
Qed.

Lemma prefix_too_long (p f : string) :
  String.length f < String.length p -> prefix p f = false.
Proof.
  revert f; induction p as [|a p IH]; intros f Hlen; [simpl in Hlen; lia|].
  destruct f as [|b f]; [reflexivity|].
  simpl in *. destruct (ascii_dec a b); [apply IH; lia | reflexivity].
Qed.

Lemma prefix_head (c : ascii) (p : string) (a : ascii) (s : string) :
  a <> c -> prefix (String c p) (String a s) = false.
Proof. intros Hne. simpl. destruct (ascii_dec c a); congruence. Qed.

(** ** Counting lemmas *)

Lemma counted_nil (p : string) : counted p "" 0.
Proof. intros rest. reflexivity. Qed.

Lemma counted_occurrences (p s : string) (n : nat) :
  counted p s n -> occurrences p s = n.
Proof. intros H. specialize (H ""). rewrite append_nil_r in H. simpl in H. lia. Qed.

Lemma counted_append (p a b : string) (n m : nat) :
  counted p a n -> counted p b m -> counted p (a ++ b) (n + m).
Proof.
  intros Ha Hb rest. rewrite append_assoc, Ha, Hb. lia.
Qed.

Lemma counted_eq (p s : string) (n m : nat) :
  counted p s n -> n = m -> counted p s m.
Proof. now intros H <-. Qed.

Lemma counted_fixed (p f : string) :
  tight p f = true -> counted p f (occurrences p f).
Proof.
  induction f as [|a f IH]; intros Ht rest; [reflexivity|].
  cbn [tight] in Ht. apply andb_true_iff in Ht as [Hhere Hrest].
  specialize (IH Hrest rest).
  change (String a f ++ rest) with (String a (f ++ rest)).
  cbn [occurrences]. rewrite IH.
  change (String a (f ++ rest)) with (String a f ++ rest).
  assert (prefix p (String a f ++ rest) = prefix p (String a f)) as ->; [|lia].
  apply orb_true_iff in Hhere as [Hlong | Hno].
  - apply prefix_append_long. now apply Nat.leb_le.
  - destruct (Nat.le_gt_cases (String.length p) (String.length (String a f)))
      as [Hle | Hgt]; [now apply prefix_append_long|].
    rewrite (prefix_too_long _ _ Hgt).
    destruct (prefix p (String a f ++ rest)) eqn:Hp; [|reflexivity].
    apply prefix_append_short in Hp; [|assumption].
    rewrite Hp in Hno. discriminate.
Qed.

(** Text without the first character of [p] holds no occurrence of it. *)
Lemma counted_without (c : ascii) (p u : string) :
  has_char c u = false -> counted (String c p) u 0.
Proof.
  induction u as [|a u IH]; intros Hc rest; [reflexivity|].
  simpl in Hc. apply orb_false_iff in Hc as [Ha Hu].
  change (String a u ++ rest) with (String a (u ++ rest)).
  cbn [occurrences]. rewrite (IH Hu rest).
  rewrite prefix_head; [reflexivity|].
  intros ->. now rewrite Ascii.eqb_refl in Ha.
Qed.

Lemma counted_join (p sep : string) (k : nat) (l : list string) (n : nat) :
  counted p sep k -> Forall (fun s => counted p s n) l ->
  counted p (join sep l) (List.length l * n + (List.length l - 1) * k).
Proof.
  intros Hsep Hl. induction Hl as [|s l Hs Hl IH]; [apply counted_nil|].
  destruct l as [|s' l].
  - simpl. eapply counted_eq; [exact Hs | lia].
  - change (join sep (s :: s' :: l)) with (s ++ sep ++ join sep (s' :: l)).
    eapply counted_eq.
    + apply counted_append; [exact Hs|].
      apply counted_append; [exact Hsep | exact IH].
    + cbn [List.length].
      replace (S (S (List.length l)) - 1) with (S (List.length l)) by lia.
      replace (S (List.length l) - 1) with (List.length l) by lia.
      simpl. lia.
Qed.

(** ** Escaping *)

(** The five passes of the source amount to one pass that writes [entity]
    for every character: the ampersand goes first, so the ampersands of the
    entities written later are not escaped again. *)
Lemma escape_passes (s : string) :
  replaceAll "'"%char "&#039;"
    (replaceAll "034"%char "&quot;"
       (replaceAll ">"%char "&gt;"
          (replaceAll "<"%char "&lt;"
             (replaceAll "&"%char "&amp;" s))))
  = escape_text s.
Proof.
  induction s as [|a s IH]; [reflexivity|].
  cbn [escape_text]. unfold entity.
  destruct (Ascii.eqb a "&"%char) eqn:E1.
  { apply Ascii.eqb_eq in E1; subst a. simpl. now rewrite IH. }
  destruct (Ascii.eqb a "<"%char) eqn:E2.
  { apply Ascii.eqb_eq in E2; subst a. simpl. now rewrite IH. }
  destruct (Ascii.eqb a ">"%char) eqn:E3.
  { apply Ascii.eqb_eq in E3; subst a. simpl. now rewrite IH. }
  destruct (Ascii.eqb a "034"%char) eqn:E4.
  { apply Ascii.eqb_eq in E4; subst a. simpl. now rewrite IH. }
  destruct (Ascii.eqb a "'"%char) eqn:E5.
  { apply Ascii.eqb_eq in E5; subst a. simpl. now rewrite IH. }
  cbn [replaceAll]. rewrite E1. cbn [replaceAll]. rewrite E2.
  cbn [replaceAll]. rewrite E3. cbn [replaceAll]. rewrite E4.
  cbn [replaceAll]. rewrite E5. simpl. now rewrite IH.
Qed.

Lemma escapeHtml_text (v : value) (out : string) :
  escapeHtml v = Ok out ->
  out = "" \/ exists s, ToString v = Ok s /\ out = escape_text s.
Proof.
  unfold escapeHtml. destruct (truthy v); cbn [negb].
  - destruct (ToString v) as [s|e]; cbn [bind]; [|discriminate].
    intros [= <-]. right. exists s. now rewrite escape_passes.
  - intros [= <-]. now left.
Qed.

Lemma entity_no_special (c a : ascii) :
  is_special c = true -> has_char c (entity a) = false.
Proof.
  unfold is_special, entity. intros Hc.
  repeat (apply orb_true_iff in Hc as [Hc|Hc]);
    apply Ascii.eqb_eq in Hc; subst c;
    repeat match goal with
           | |- context [Ascii.eqb a ?x] =>
               let E := fresh "E" in destruct (Ascii.eqb a x) eqn:E
           end; try reflexivity;
    cbn [has_char]; rewrite orb_false_r; assumption.
Qed.

Lemma escape_text_no_special (c : ascii) (s : string) :
  is_special c = true -> has_char c (escape_text s) = false.
Proof.
  intros Hc. induction s as [|a s IH]; [reflexivity|].
  cbn [escape_text]. now rewrite has_char_append, entity_no_special, IH.
Qed.

(** The output of [escapeHtml] holds none of [<], [>], the double quote and
    the single quote. *)
Lemma escapeHtml_no_special (c : ascii) (v : value) (out : string) :
  is_special c = true -> escapeHtml v = Ok out -> has_char c out = false.
Proof.
  intros Hc H. apply escapeHtml_text in H as [->|(s & _ & ->)]; [reflexivity|].
  now apply escape_text_no_special.
Qed.

(** ** Characters of numbers and dates *)

Lemma all_chars_append (f : ascii -> bool) (a b : string) :
  all_chars f (a ++ b) = all_chars f a && all_chars f b.
Proof.
  induction a as [|x a IH]; [reflexivity|].
  simpl. now rewrite IH, andb_assoc.
Qed.

Lemma all_chars_weaken (f g : ascii -> bool) (s : string) :
  (forall a, f a = true -> g a = true) ->
  all_chars f s = true -> all_chars g s = true.
Proof.
  intros Hfg. induction s as [|a s IH]; [reflexivity|].
  simpl. intros H. apply andb_true_iff in H as [Ha Hs].
  now rewrite (Hfg _ Ha), IH.
Qed.

Lemma all_chars_substring (f : ascii -> bool) (s : string) (n m : nat) :
  all_chars f s = true -> all_chars f (substring n m s) = true.
Proof.
  revert n m. induction s as [|a s IH]; intros n m H.
  - destruct n, m; reflexivity.
  - simpl in H. apply andb_true_iff in H as [Ha Hs].
    destruct n as [|n]; simpl.
    + destruct m as [|m]; [reflexivity|]. simpl. now rewrite Ha, IH.
    + now apply IH.
Qed.

Lemma all_chars_has_char (f : ascii -> bool) (c : ascii) (s : string) :
  f c = false -> all_chars f s = true -> has_char c s = false.
Proof.
  intros Hc. induction s as [|a s IH]; [reflexivity|].
  simpl. intros H. apply andb_true_iff in H as [Ha Hs].
  rewrite (IH Hs), orb_false_r.
  destruct (Ascii.eqb a c) eqn:E; [|reflexivity].
  apply Ascii.eqb_eq in E. congruence.
Qed.

Lemma uint_digits (d : Decimal.uint) :
  all_chars is_digit (NilEmpty.string_of_uint d) = true.
Proof. induction d; simpl; try rewrite IHd; reflexivity. Qed.

Lemma digits_of_digits (n : Z) : all_chars is_digit (digits_of n) = true.
Proof.
  unfold digits_of, NilZero.string_of_uint.
  destruct (N.to_uint (Z.to_N n)) eqn:E; try reflexivity;
    rewrite <- E; apply uint_digits.
Qed.

Lemma zeros_digits (n : nat) : all_chars is_number_char (zeros n) = true.
Proof. induction n; [reflexivity | exact IHn]. Qed.

Lemma Number_toString_chars (m : Z) (s : nat) :
  all_chars is_number_char (Number_toString m s) = true.
Proof.
  assert (Hd : forall n, all_chars is_number_char (digits_of n) = true).
  { intros n. apply all_chars_weaken with (f := is_digit); [|apply digits_of_digits].
    intros a Ha. unfold is_number_char. now rewrite Ha. }
  assert (Hsign : forall z : Z,
             all_chars is_number_char (if (z <? 0)%Z then "-" else "") = true).
  { intros z. now destruct (z <? 0)%Z. }
  unfold Number_toString. destruct (normalize m s) as [m' s'].
  destruct s' as [|k].
  - now rewrite all_chars_append, Hsign, Hd.
  - destruct (Nat.ltb (S k) (String.length (digits_of (Z.abs m')))).
    + rewrite !all_chars_append, Hsign.
      rewrite !all_chars_substring by apply Hd. reflexivity.
    + rewrite !all_chars_append, Hsign, zeros_digits, Hd. reflexivity.
Qed.

Lemma Number_toString_no_lt (m : Z) (s : nat) :
  has_char "<"%char (Number_toString m s) = false.
Proof.
  apply all_chars_has_char with (f := is_number_char);
    [reflexivity | apply Number_toString_chars].
Qed.

Lemma toLocaleDateString_no_lt (c : clock) :
  has_char "<"%char (toLocaleDateString c) = false.
Proof.
  unfold toLocaleDateString. rewrite !has_char_append.
  assert (Hd : forall n, has_char "<"%char (digits_of n) = false).
  { intros n. apply all_chars_has_char with (f := is_digit);
      [reflexivity | apply digits_of_digits]. }
  rewrite !Hd. now destruct (mon c).
Qed.

Lemma counted_no_lt (p u : string) :
  prefix "<" p = true -> has_char "<"%char u = false -> counted p u 0.
Proof.
  destruct p as [|c p]; [discriminate|].
  cbn [prefix]. destruct (ascii_dec "<"%char c) as [Hc|Hc].
  - subst c. intros _. apply counted_without.
  - intros H. discriminate H.
Qed.

Lemma counted_concat (p : string) (l : list string) (n : nat) :
  Forall (fun s => counted p s n) l -> counted p (join "" l) (List.length l * n).
Proof.
  intros H. eapply counted_eq.
  - apply counted_join with (k := 0); [apply counted_nil | exact H].
  - lia.
Qed.

Lemma Ok_inj {A : Type} (a b : A) : Ok a = Ok b -> a = b.
Proof. now intros [= ->]. Qed.

(** Inversion of a successful sequence of steps. *)
Ltac inv_ok H :=
  repeat
    match type of H with
    | bind ?c _ = Ok _ =>
        let x := fresh "x" in
        let E := fresh "E" in
        destruct c as [x|] eqn:E; cbn [bind] in H; [|discriminate H]
    end;
  try (apply Ok_inj in H).

(** Counting in a concatenation: hypotheses for the parts that were
    rendered before, the absence of [<] for interpolated text, and
    evaluation for the text of the template. *)
Ltac count_fixed :=
  lazymatch goal with
  | |- counted ?p ?f _ =>
      let k := eval vm_compute in (occurrences p f) in
      apply (counted_eq p f (occurrences p f) k);
      [ apply counted_fixed; vm_compute; reflexivity
      | vm_compute; reflexivity ]
  end.

Ltac count_text :=
  apply counted_no_lt;
  [ first [assumption | reflexivity]
  | first [ assumption
          | eapply escapeHtml_no_special; [reflexivity | eassumption] ] ].

Ltac count_leaf :=
  lazymatch goal with
  | |- counted _ EmptyString _ => apply counted_nil
  | |- counted _ (String _ _) _ => count_fixed
  | |- counted _ (html _) _ => count_fixed
  | |- counted _ (Number_toString _ _) _ =>
      apply counted_no_lt;
      [first [assumption | reflexivity] | apply Number_toString_no_lt]
  | |- counted _ (toLocaleDateString _) _ =>
      apply counted_no_lt;
      [first [assumption | reflexivity] | apply toLocaleDateString_no_lt]
  | |- counted _ ?s _ =>
      tryif is_var s then first [eassumption | count_text] else count_fixed
  end.

Ltac count_tree :=
  lazymatch goal with
  | |- counted _ (append _ _) _ =>
      eapply counted_append; [count_tree | count_tree]
  | |- _ => count_leaf
  end.

Ltac count_all :=
  eapply counted_eq; [count_tree | cbn [Nat.add Nat.mul]; lia].

(** ** The barcode *)

Lemma rect_bar_svg (x w : Z) : VariantA.rect x w = bar_svg (x, w).
Proof.
  unfold VariantA.rect, bar_svg, q. cbn [fst snd].
  repeat rewrite append_assoc. reflexivity.
Qed.

Lemma fold_bar_step (chars : list ascii) (x : Z) (lines : list string) :
  snd (fold_left VariantA.bar_step chars (x, lines))
  = (lines ++ map bar_svg (bars_from x chars))%list.
Proof.
  revert x lines. induction chars as [|c chars IH]; intros x lines.
  - simpl. now rewrite app_nil_r.
  - cbn [fold_left VariantA.bar_step bars_from map]. fold (bar_width c).
    rewrite IH, <- app_assoc, rect_bar_svg. reflexivity.
Qed.

Lemma bars_from_shift (chars : list ascii) (x d : Z) :
  bars_from (x + d) chars
  = map (fun b => (fst b + d, snd b)%Z) (bars_from x chars).
Proof.
  revert x. induction chars as [|c chars IH]; intros x; [reflexivity|].
  cbn [bars_from map fst snd]. f_equal.
  replace (x + d + (bar_width c + 2))%Z with (x + (bar_width c + 2) + d)%Z by lia.
  apply IH.
Qed.

Lemma spec_bars_cons (c : ascii) (chars : list ascii) :
  spec_bars (c :: chars)
  = (10%Z, bar_width c)
      :: map (fun b => (fst b + (bar_width c + 2), snd b)%Z) (spec_bars chars).
Proof.
  unfold spec_bars. cbn [List.length seq map]. f_equal.
  rewrite <- seq_shift, !map_map. apply map_ext. intros k.
  unfold bar_x. cbn [firstn fold_right nth fst snd]. f_equal. lia.
Qed.

Lemma bars_from_spec (chars : list ascii) : bars_from 10 chars = spec_bars chars.
Proof.
  induction chars as [|c chars IH]; [reflexivity|].
  rewrite spec_bars_cons. cbn [bars_from]. f_equal.
  rewrite bars_from_shift, IH. reflexivity.
Qed.

Lemma spec_bars_length (chars : list ascii) :
  List.length (spec_bars chars) = List.length chars.
Proof. unfold spec_bars. now rewrite length_map, length_seq. Qed.

Lemma filter_chars_nil_alnum (s : string) :
  truthy (VStr s) = false -> alnum_chars s = [].
Proof.
  simpl. destruct s; [reflexivity | discriminate].
Qed.

(** What [generateBarcodeLines] returns for a string. *)
Lemma generateBarcodeLines_string (s : string) :
  VariantA.generateBarcodeLines (VStr s)
  = Ok (join "" (map bar_svg (spec_bars (alnum_chars s)))).
Proof.
  unfold VariantA.generateBarcodeLines.
  destruct (truthy (VStr s)) eqn:Ht; cbn [negb].
  - fold (alnum_chars s).
    pose proof (fold_bar_step (alnum_chars s) 10 []) as H.
    destruct (fold_left VariantA.bar_step (alnum_chars s) (10%Z, [])) as [x lines].
    cbn [snd app] in H. subst lines. now rewrite bars_from_spec.
  - now rewrite (filter_chars_nil_alnum s Ht).
Qed.

(** A value other than a string is either falsy, and gives no bar, or makes
    [text.replace] throw. *)
Lemma generateBarcodeLines_cases (v : value) (out : string) :
  VariantA.generateBarcodeLines v = Ok out ->
  out = "" \/ exists s, v = VStr s /\ out = join "" (map bar_svg (spec_bars (alnum_chars s))).
Proof.
  intros H. destruct v as [| |b|m s|s|l|f];
    try (unfold VariantA.generateBarcodeLines in H;
         destruct (negb (truthy _)); [apply Ok_inj in H; now left | discriminate H]).
  right. exists s. rewrite generateBarcodeLines_string in H.
  apply Ok_inj in H. now split.
Qed.

(** ** Counting markers in the output of variant A *)

Lemma mapM_Forall {A B : Type} (f : A -> result B) (P : B -> Prop)
      (l : list A) (ys : list B) :
  mapM f l = Ok ys ->
  Forall (fun x => forall y, f x = Ok y -> P y) l ->
  Forall P ys /\ List.length ys = List.length l.
Proof.
  revert ys. induction l as [|x l IH]; intros ys H Hall.
  - apply Ok_inj in H. subst ys. split; [constructor | reflexivity].
  - cbn [mapM] in H. inv_ok H. subst ys.
    inversion Hall as [|? ? Hx Hl]; subst.
    destruct (IH _ eq_refl Hl) as [IH1 IH2].
    split; [constructor; [now apply Hx | exact IH1] | simpl; now rewrite IH2].
Qed.

Lemma firstn_In {A : Type} (n : nat) (l : list A) (x : A) :
  In x (firstn n l) -> In x l.
Proof.
  revert l. induction n as [|n IH]; intros l H; [destruct H|].
  destruct l as [|y l]; [destruct H|].
  destruct H as [<-|H]; [now left | right; now apply IH].
Qed.

Lemma Array_fill_length (n : Z) (slots : list unit) :
  Array_fill n = Ok slots -> List.length slots = Z.to_nat n.
Proof.
  unfold Array_fill. destruct ((0 <=? n) && (n <? 4294967296))%Z; [|discriminate].
  intros H. apply Ok_inj in H. subst slots. apply repeat_length.
Qed.

Lemma optional_line_counted (p : string) (v : value) (before after s : string) :
  VariantA.optional_line v before after = Ok s ->
  prefix "<" p = true -> counted p before 0 -> counted p after 0 ->
  counted p s 0.
Proof.
  intros H Hp Hb Ha. unfold VariantA.optional_line in H.
  destruct (truthy v).
  - inv_ok H. subst s. count_all.
  - apply Ok_inj in H. subst s. apply counted_nil.
Qed.

(** The parts of a label that were rendered by a helper. *)
Ltac count_parts p barcode_lemma :=
  repeat match goal with
    | E : VariantA.optional_line _ _ _ = Ok ?s |- _ =>
        assert (counted p s 0)
          by (eapply optional_line_counted;
              [exact E | reflexivity | count_all | count_all]);
        clear E
    | E : VariantA.generateBarcodeLines _ = Ok ?b |- _ =>
        apply barcode_lemma in E
    end.

Section CountingA.

(** A marker [p], and what each template of variant A holds of it. *)
Variable p : string.
Variables n_row n_more n_label n_sep n_doc : nat.

Hypothesis rect_p : forall x w, counted p (VariantA.rect x w) 0.
Hypothesis row_p :
  forall item r, VariantA.item_row item = Ok r -> plain_quantity item ->
                 counted p r n_row.
Hypothesis more_p :
  forall c, (0 < c)%Z -> counted p (VariantA.more_items_html c) n_more.
Hypothesis label_p :
  forall o sa d items more L ni nm,
    VariantA.label o sa d items more = Ok L ->
    has_char "<"%char d = false ->
    counted p items ni -> counted p more nm ->
    (forall v b, VariantA.generateBarcodeLines v = Ok b -> counted p b 0) ->
    counted p L (n_label + ni + nm).
Hypothesis sep_p : counted p VariantA.page_break n_sep.
Hypothesis doc_p :
  forall title labels n,
    has_char "<"%char title = false -> counted p labels n ->
    counted p (VariantA.document title labels) (n_doc + n).

Lemma barcode_counted (v : value) (b : string) :
  VariantA.generateBarcodeLines v = Ok b -> counted p b 0.
Proof.
  intros H. apply generateBarcodeLines_cases in H as [->|(s & _ & ->)];
    [apply counted_nil|].
  eapply counted_eq; [apply counted_concat with (n := 0) | lia].
  apply Forall_forall. intros r Hr. apply in_map_iff in Hr as ([x w] & <- & _).
  rewrite <- rect_bar_svg. apply rect_p.
Qed.

Lemma items_html_counted (l : list value) (h : string) :
  VariantA.items_html (VArr l) = Ok h -> Forall plain_quantity l ->
  counted p h (Nat.min (List.length l) 5 * n_row).
Proof.
  intros H Hl. cbn [VariantA.items_html] in H. inv_ok H. subst h.
  destruct (mapM_Forall VariantA.item_row (fun r => counted p r n_row)
              (firstn 5 l) x E) as [Hrows Hlen].
  - apply Forall_forall. intros item Hin r Hr. apply (row_p item r Hr).
    rewrite Forall_forall in Hl. apply Hl. eapply firstn_In, Hin.
  - rewrite length_firstn, Nat.min_comm in Hlen. rewrite <- Hlen.
    now apply counted_concat.
Qed.

Lemma more_items_counted (len : nat) :
  counted p (VariantA.more_items_html (Z.of_nat len - 5)) (more_count n_more len).
Proof.
  unfold more_count. destruct (Nat.ltb 5 len) eqn:E.
  - apply more_p. apply Nat.ltb_lt in E. lia.
  - apply Nat.ltb_ge in E. unfold VariantA.more_items_html.
    destruct (0 <? Z.of_nat len - 5)%Z eqn:E'; [apply Z.ltb_lt in E'; lia|].
    apply counted_nil.
Qed.

(** The number of markers in a rendered document. *)
Lemma render_counted (now : clock) (o : order) (copies : Z) (h : string)
      (l : list value) :
  VariantA.generateThermalLabelHtml now o copies = Ok h ->
  or_else (lineItems o) (VArr []) = VArr l ->
  Forall plain_quantity l ->
  occurrences p h
  = n_doc + (Z.to_nat copies
             * (n_label + Nat.min (List.length l) 5 * n_row
                + more_count n_more (List.length l))
             + (Z.to_nat copies - 1) * n_sep).
Proof.
  intros H Hli Hl. unfold VariantA.generateThermalLabelHtml in H.
  rewrite Hli in H. inv_ok H. subst h.
  apply counted_occurrences. apply doc_p.
  { eapply escapeHtml_no_special; [reflexivity | eassumption]. }
  match goal with
  | E : mapM _ ?slots = Ok ?labels, F : Array_fill _ = Ok ?slots |- _ =>
      apply Array_fill_length in F; rewrite <- F;
      apply mapM_Forall
        with (P := fun L => counted p L
                     (n_label + Nat.min (List.length l) 5 * n_row
                      + more_count n_more (List.length l))) in E;
      [destruct E as [Hall <-]; now apply counted_join|]
  end.
  apply Forall_forall. intros _ _ L HL.
  eapply label_p; [exact HL | apply toLocaleDateString_no_lt | | | ].
  - now apply items_html_counted.
  - cbn [VariantA.length_of]. apply more_items_counted.
  - apply barcode_counted.
Qed.

End CountingA.

(** What each template holds of the four markers. *)

Ltac count_rect := intros; unfold VariantA.rect; count_all.

Ltac count_row :=
  let item := fresh "item" in
  let r := fresh "r" in
  let H := fresh "H" in
  let Hq := fresh "Hq" in
  intros item r H Hq; unfold VariantA.item_row in H; inv_ok H; subst r;
  match goal with
  | E1 : Get item "quantity" = Ok ?v, E2 : ToString (or_else ?v _) = Ok ?t |- _ =>
      assert (has_char "<"%char t = false)
        by (apply Hq; unfold quantity_text; rewrite E1; exact E2)
  end;
  count_all.

Ltac count_more :=
  let c := fresh "c" in
  let Hc := fresh "Hc" in
  intros c Hc; unfold VariantA.more_items_html;
  apply Z.ltb_lt in Hc; rewrite Hc; count_all.

Ltac count_label pat :=
  let H := fresh "H" in
  let Hd := fresh "Hd" in
  let Hi := fresh "Hi" in
  let Hm := fresh "Hm" in
  let Hb := fresh "Hb" in
  intros ? ? ? ? ? ? ? ? H Hd Hi Hm Hb; unfold VariantA.label in H;
  inv_ok H; subst; count_parts pat Hb; count_all.

Ltac count_document := intros; unfold VariantA.document; count_all.

Lemma label_open_rect (x w : Z) : counted label_open (VariantA.rect x w) 0.
Proof. count_rect. Qed.

Lemma label_open_row (item : value) (r : string) :
  VariantA.item_row item = Ok r -> plain_quantity item -> counted label_open r 0.
Proof. revert item r. count_row. Qed.

Lemma label_open_more (c : Z) :
  (0 < c)%Z -> counted label_open (VariantA.more_items_html c) 0.
Proof. revert c. count_more. Qed.

Lemma label_open_label (o : order) (sa : value) (d items more L : string) (ni nm : nat) :
  VariantA.label o sa d items more = Ok L ->
  has_char "<"%char d = false ->
  counted label_open items ni -> counted label_open more nm ->
  (forall v b, VariantA.generateBarcodeLines v = Ok b -> counted label_open b 0) ->
  counted label_open L (1 + ni + nm).
Proof. revert o sa d items more L ni nm. count_label label_open. Qed.

Lemma label_open_page_break : counted label_open VariantA.page_break 0.
Proof. count_all. Qed.

Lemma label_open_document (title labels : string) (n : nat) :
  has_char "<"%char title = false -> counted label_open labels n ->
  counted label_open (VariantA.document title labels) (0 + n).
Proof. count_document. Qed.

Lemma page_break_rect (x w : Z) : counted VariantA.page_break (VariantA.rect x w) 0.
Proof. count_rect. Qed.

Lemma page_break_row (item : value) (r : string) :
  VariantA.item_row item = Ok r -> plain_quantity item -> counted VariantA.page_break r 0.
Proof. revert item r. count_row. Qed.

Lemma page_break_more (c : Z) :
  (0 < c)%Z -> counted VariantA.page_break (VariantA.more_items_html c) 0.
Proof. revert c. count_more. Qed.

Lemma page_break_label (o : order) (sa : value) (d items more L : string) (ni nm : nat) :
  VariantA.label o sa d items more = Ok L ->
  has_char "<"%char d = false ->
  counted VariantA.page_break items ni -> counted VariantA.page_break more nm ->
  (forall v b, VariantA.generateBarcodeLines v = Ok b -> counted VariantA.page_break b 0) ->
  counted VariantA.page_break L (0 + ni + nm).
Proof. revert o sa d items more L ni nm. count_label VariantA.page_break. Qed.

Lemma page_break_page_break : counted VariantA.page_break VariantA.page_break 1.
Proof. count_all. Qed.

Lemma page_break_document (title labels : string) (n : nat) :
  has_char "<"%char title = false -> counted VariantA.page_break labels n ->
  counted VariantA.page_break (VariantA.document title labels) (0 + n).
Proof. count_document. Qed.













(** The markers of a document of variant A, by kind. *)

Lemma label_open_count (now : clock) (o : order) (copies : Z) (h : string)
      (l : list value) :
  VariantA.generateThermalLabelHtml now o copies = Ok h ->
  or_else (lineItems o) (VArr []) = VArr l ->
  Forall plain_quantity l ->
  occurrences label_open h = Z.to_nat copies.
Proof.
  intros H Hli Hl.
  rewrite (render_counted label_open 0 0 1 0 0 label_open_rect
             label_open_row label_open_more label_open_label
             label_open_page_break label_open_document now o copies h l H Hli Hl).
  unfold more_count. destruct (Nat.ltb 5 (List.length l)); lia.
Qed.

Lemma page_break_count (now : clock) (o : order) (copies : Z) (h : string)
      (l : list value) :
  VariantA.generateThermalLabelHtml now o copies = Ok h ->
  or_else (lineItems o) (VArr []) = VArr l ->
  Forall plain_quantity l ->
  occurrences VariantA.page_break h = Z.to_nat copies - 1.
Proof.
  intros H Hli Hl.
  rewrite (render_counted VariantA.page_break 0 0 0 1 0 page_break_rect
             page_break_row page_break_more page_break_label
             page_break_page_break page_break_document now o copies h l H Hli Hl).
  unfold more_count. destruct (Nat.ltb 5 (List.length l)); lia.
Qed.



(** ** Well-typed orders render *)

Lemma bind_ok {A B : Type} (c : result A) (k : A -> result B) (a : A) (b : B) :
  c = Ok a -> k a = Ok b -> bind c k = Ok b.
Proof. now intros -> H. Qed.

Lemma is_text_or_else (a b : value) :
  is_text a = true -> is_text b = true -> is_text (or_else a b) = true.
Proof. intros Ha Hb. unfold or_else. now destruct (truthy a). Qed.

Lemma escapeHtml_is_text (v : value) :
  is_text v = true -> escapeHtml v = Ok (escape_text (text_of v)).
Proof.
  destruct v as [| |b|m s|s|l|f]; try discriminate; intros _; try reflexivity.
  unfold escapeHtml. destruct (truthy (VStr s)) eqn:E; cbn [negb ToString bind text_of].
  - now rewrite escape_passes.
  - destruct s; [reflexivity | discriminate E].
Qed.

Lemma optional_line_is_text (v : value) (before after : string) :
  is_text v = true ->
  VariantA.optional_line v before after
  = Ok (if truthy v then before ++ escape_text (text_of v) ++ after else "").
Proof.
  intros H. unfold VariantA.optional_line.
  rewrite (escapeHtml_is_text v H). now destruct (truthy v).
Qed.

Ltac split_andb H :=
  repeat match type of H with
    | (_ && _)%bool = true =>
        let H1 := fresh "T" in
        apply andb_true_iff in H; destruct H as [H1 H]; try split_andb H1
    end.

Ltac text_side :=
  repeat apply is_text_or_else; first [assumption | reflexivity].

(** One step of a rendering that succeeds. *)
Ltac step_ok :=
  eapply bind_ok;
  [ first [ reflexivity
          | apply escapeHtml_is_text; text_side
          | apply optional_line_is_text; text_side
          | apply generateBarcodeLines_string ]
  | cbv beta ].

Lemma label_total (o : order) (f : list (string * value))
      (d items more : string) :
  is_string (name o) = true -> typed_address (VObj f) = true ->
  exists L, VariantA.label o (VObj f) d items more = Ok L.
Proof.
  intros Hn Ha. destruct (name o) as [| |b|m s|n|l|g] eqn:En; try discriminate.
  unfold typed_address, address_fields in Ha. cbn [forallb] in Ha. split_andb Ha.
  eexists. unfold VariantA.label. rewrite En. cbn [Get].
  repeat step_ok. reflexivity.
Qed.

Lemma typed_quantity_number (v : value) :
  typed_quantity v = true -> exists m s, or_else v (VInt 1) = VNum m s.
Proof.
  unfold typed_quantity, or_else. destruct (truthy v) eqn:E; cbn [negb orb].
  - destruct v; try discriminate. intros _. eauto.
  - intros _. exists 1%Z, 0. reflexivity.
Qed.

Lemma typed_item_plain (item : value) :
  typed_item item = true -> plain_quantity item.
Proof.
  destruct item as [| |b|m s|s|l|f]; try discriminate.
  cbn [typed_item]. intros H.
  apply andb_true_iff in H as [H _]. apply andb_true_iff in H as [Hqty _].
  destruct (typed_quantity_number _ Hqty) as (m & s & Hq).
  intros t Ht. unfold quantity_text in Ht. cbn [Get bind] in Ht.
  rewrite Hq in Ht. apply Ok_inj in Ht. subst t. apply Number_toString_no_lt.
Qed.

Lemma item_row_total (item : value) :
  typed_item item = true -> exists r, VariantA.item_row item = Ok r.
Proof.
  destruct item as [| |b|m s|s|l|f]; try discriminate.
  cbn [typed_item]. intros H.
  apply andb_true_iff in H as [H Hname]. apply andb_true_iff in H as [Hqty Htitle].
  destruct (typed_quantity_number _ Hqty) as (m & s & Hq).
  eexists. unfold VariantA.item_row. cbn [Get bind]. rewrite Hq.
  cbn [ToString bind]. repeat step_ok. reflexivity.
Qed.

Lemma mapM_total {A B : Type} (f : A -> result B) (l : list A) :
  Forall (fun x => exists y, f x = Ok y) l -> exists ys, mapM f l = Ok ys.
Proof.
  induction 1 as [|x l [y Hy] _ [ys Hys]]; [now exists []|].
  exists (y :: ys). cbn [mapM]. now rewrite Hy, Hys.
Qed.

Lemma mapM_const {A B : Type} (c : result B) (y : B) (l : list A) :
  c = Ok y -> mapM (fun _ => c) l = Ok (repeat y (List.length l)).
Proof.
  intros ->. induction l as [|x l IH]; [reflexivity|].
  cbn [mapM]. now rewrite IH.
Qed.

Lemma typed_items_Forall (l : list value) :
  forallb typed_item l = true -> Forall (fun x => typed_item x = true) l.
Proof. intros H. apply Forall_forall. now apply forallb_forall. Qed.

Lemma typed_items_plain (l : list value) :
  forallb typed_item l = true -> Forall plain_quantity l.
Proof.
  intros H. apply typed_items_Forall in H.
  eapply Forall_impl; [|exact H]. apply typed_item_plain.
Qed.

Lemma items_html_total (l : list value) :
  forallb typed_item l = true -> exists h, VariantA.items_html (VArr l) = Ok h.
Proof.
  intros H. destruct (mapM_total VariantA.item_row (firstn 5 l)) as [rows Hrows].
  - apply Forall_forall. intros item Hin. apply item_row_total.
    apply firstn_In in Hin. rewrite forallb_forall in H. now apply H.
  - exists (join "" rows). cbn [VariantA.items_html]. now rewrite Hrows.
Qed.

(** A well-typed order renders, whatever the number of copies within the
    limit on array lengths; every copy is the same label. *)
Lemma render_total (now : clock) (o : order) (copies : Z) :
  typed_order o = true -> valid_length copies = true ->
  exists h L title,
    VariantA.generateThermalLabelHtml now o copies = Ok h
    /\ h = VariantA.document title
             (join VariantA.page_break (repeat L (Z.to_nat copies)))
    /\ escapeHtml (name o) = Ok title
    /\ exists ih,
        VariantA.items_html (lineItems o) = Ok ih
        /\ VariantA.label o (shippingAddress o) (toLocaleDateString now) ih
             (VariantA.more_items_html (VariantA.length_of (lineItems o) - 5))
           = Ok L.
Proof.
  intros Ho Hc. unfold typed_order in Ho.
  apply andb_true_iff in Ho as [Ho Hitems]. apply andb_true_iff in Ho as [Hname Haddr].
  destruct (shippingAddress o) as [| |b|m s|s|l|f] eqn:Esa; try discriminate.
  destruct (lineItems o) as [| |b|m s|s|l|g] eqn:Eli; try discriminate.
  cbn [typed_items] in Hitems.
  destruct (items_html_total l Hitems) as [ih Hih].
  destruct (label_total o f (toLocaleDateString now) ih
              (VariantA.more_items_html (Z.of_nat (List.length l) - 5)) Hname Haddr)
    as [L HL].
  destruct (name o) as [| |b|m s|n|l'|g] eqn:En; try discriminate.
  exists (VariantA.document (escape_text n)
            (join VariantA.page_break (repeat L (Z.to_nat copies)))), L,
    (escape_text n).
  assert (Ht : escapeHtml (VStr n) = Ok (escape_text n))
    by now apply escapeHtml_is_text.
  split; [|split; [reflexivity | split; [exact Ht | exists ih; now split]]].
  unfold VariantA.generateThermalLabelHtml. rewrite Esa, Eli, En.
  change (or_else (VObj f) (VObj [])) with (VObj f).
  change (or_else (VArr l) (VArr [])) with (VArr l).
  rewrite Hih. cbn [bind VariantA.length_of].
  unfold Array_fill. unfold valid_length in Hc. rewrite Hc. cbn [bind].
  rewrite (mapM_const _ L _ HL), repeat_length. cbn [bind].
  now rewrite Ht.
Qed.

(** ** The logo holds no [<] *)

Lemma base64_char_no_lt (n : nat) :
  Ascii.eqb (base64_char n) "<"%char = false.
Proof.
  unfold base64_char.
  destruct (Nat.ltb n 26) eqn:E1.
  { apply Nat.ltb_lt in E1. do 26 (destruct n as [|n]; [reflexivity|]). lia. }
  destruct (Nat.ltb n 52) eqn:E2.
  { apply Nat.ltb_lt in E2. apply Nat.ltb_ge in E1.
    remember (n - 26) as k eqn:Ek. assert (Hk : k < 26) by lia. clear - Hk.
    do 26 (destruct k as [|k]; [reflexivity|]). lia. }
  destruct (Nat.ltb n 62) eqn:E3.
  { apply Nat.ltb_lt in E3. apply Nat.ltb_ge in E2.
    remember (n - 52) as k eqn:Ek. assert (Hk : k < 10) by lia. clear - Hk.
    do 10 (destruct k as [|k]; [reflexivity|]). lia. }
  now destruct (Nat.eqb n 62).
Qed.

Lemma base64_no_lt (bytes : list ascii) : has_char "<"%char (base64 bytes) = false.
Proof.
  assert (H : forall n (P : nat -> Prop),
             (forall l, List.length l < n -> has_char "<"%char (base64 l) = false)
             -> True) by trivial. clear H.
  remember (List.length bytes) as n eqn:Hn.
  revert bytes Hn. induction n as [n IH] using lt_wf_ind. intros bytes Hn.
  destruct bytes as [|a [|b [|c rest]]].
  - reflexivity.
  - cbn [base64 has_char]. now rewrite !base64_char_no_lt.
  - cbn [base64 has_char]. now rewrite !base64_char_no_lt.
  - cbn [base64 has_char]. rewrite !base64_char_no_lt. cbn [orb].
    apply (IH (List.length rest)); [subst n; simpl; lia | reflexivity].
Qed.

Lemma load_logo_no_lt (file : option (list ascii)) :
  has_char "<"%char (load_logo file) = false.
Proof. destruct file; [apply base64_no_lt | reflexivity]. Qed.

(** ** Variant B: one label *)

Lemma document_B_counted (title customer logo d order_name : string) :
  has_char "<"%char title = false -> has_char "<"%char customer = false ->
  has_char "<"%char logo = false -> has_char "<"%char d = false ->
  has_char "<"%char order_name = false ->
  counted label_open (VariantB.document title customer logo d order_name) 1.
Proof. intros. unfold VariantB.document. count_all. Qed.

Lemma render_B_count (logo : string) (now : clock) (o : order) (h : string) :
  has_char "<"%char logo = false ->
  VariantB.generateThermalLabelHtml logo now o = Ok h ->
  occurrences label_open h = 1.
Proof.
  intros Hlogo H. unfold VariantB.generateThermalLabelHtml in H.
  inv_ok H. subst h. apply counted_occurrences.
  apply document_B_counted; try assumption;
    try (eapply escapeHtml_no_special; [reflexivity | eassumption]).
  apply toLocaleDateString_no_lt.
Qed.

Lemma first_name_total (f : list (string * value)) :
  typed_address (VObj f) = true ->
  exists s, VariantB.first_name (VObj f) = Ok (VStr s).
Proof.
  intros Ha. unfold typed_address, address_fields in Ha. cbn [forallb] in Ha.
  apply andb_true_iff in Ha as [Hname Ha]. apply andb_true_iff in Ha as [Hfirst _].
  unfold VariantB.first_name. cbn [Get bind].
  destruct (field f "firstName") as [| |b|m s|s|l|g]; try discriminate;
    try (destruct (field f "name") as [| |b'|m' s'|s'|l'|g']; try discriminate;
         cbn [truthy]; try (eexists; reflexivity);
         destruct (negb (String.eqb s' "")); eexists; reflexivity).
  cbn [truthy]. destruct (negb (String.eqb s "")); [eexists; reflexivity|].
  destruct (field f "name") as [| |b'|m' s'|s'|l'|g']; try discriminate;
    cbn [truthy]; try (eexists; reflexivity).
  destruct (negb (String.eqb s' "")); eexists; reflexivity.
Qed.

Lemma render_B_total (logo : string) (now : clock) (o : order)
      (f : list (string * value)) :
  is_string (name o) = true -> shippingAddress o = VObj f ->
  typed_address (VObj f) = true ->
  exists h, VariantB.generateThermalLabelHtml logo now o = Ok h.
Proof.
  intros Hn Hsa Ha. destruct (first_name_total f Ha) as [s Hs].
  destruct (name o) as [| |b|m s'|n|l|g] eqn:En; try discriminate.
  eexists. unfold VariantB.generateThermalLabelHtml. rewrite Hsa, En.
  change (or_else (VObj f) (VObj [])) with (VObj f). rewrite Hs. cbn [bind].
  repeat step_ok. reflexivity.
Qed.

(** ** The handler *)

Lemma print_A_sent (now : clock) (qr : query) (log : list exn) (sa li : value)
      (c : Z) (h : string) :
  read_params qr = (log, sa, li) ->
  VariantA.copies_of (labelCount qr) = Ok c ->
  VariantA.generateThermalLabelHtml now (build_order qr sa li) c = Ok h ->
  VariantA.print now qr = (log, Sent (send h)).
Proof.
  intros Hr Hc Hh. unfold VariantA.print. rewrite Hr, Hc. cbn [bind].
  now rewrite Hh.
Qed.

Lemma print_B_sent (logo : string) (now : clock) (qr : query) (log : list exn)
      (sa li : value) (h : string) :
  read_params qr = (log, sa, li) ->
  VariantB.generateThermalLabelHtml logo now (build_order qr sa li) = Ok h ->
  VariantB.print logo now qr = (log, Sent (send h)).
Proof.
  intros Hr Hh. unfold VariantB.print. now rewrite Hr, Hh.
Qed.

Lemma order_name_string (qr : query) (sa li : value) :
  is_text (orderName qr) = true -> is_string (name (build_order qr sa li)) = true.
Proof.
  cbn [build_order name]. unfold or_else.
  destruct (orderName qr) as [| |b|m s|s|l|f]; try discriminate; try reflexivity.
  intros _. now destruct (truthy (VStr s)).
Qed.

Lemma read_params_first_fails (qr : query) (e : exn) :
  malformed (query_shippingAddress qr) e ->
  read_params qr = ([e], VObj [], VArr []).
Proof. intros [Ht Hp]. unfold read_params. now rewrite Ht, Hp. Qed.

Lemma read_params_second_fails (qr : query) (e : exn) :
  truthy (query_shippingAddress qr) = false ->
  malformed (query_lineItems qr) e ->
  read_params qr = ([e], VObj [], VArr []).
Proof. intros Hsa [Ht Hp]. unfold read_params. now rewrite Hsa, Ht, Hp. Qed.

Lemma read_params_keeps_first (qr : query) (v : value) (e : exn) :
  truthy (query_shippingAddress qr) = true ->
  parse_param (query_shippingAddress qr) = Ok v ->
  malformed (query_lineItems qr) e ->
  read_params qr = ([e], v, VArr []).
Proof. intros Hsa Hv [Ht Hp]. unfold read_params. now rewrite Hsa, Hv, Ht, Hp. Qed.

Lemma print_B_ignores_labelCount (logo : string) (now : clock) (qr : query)
      (lc : value) :
  VariantB.print logo now (with_labelCount lc qr) = VariantB.print logo now qr.
Proof. reflexivity. Qed.

Lemma print_B_body (logo : string) (now : clock) (qr : query) (log : list exn)
      (h : string) :
  VariantB.print logo now qr = (log, Sent (send h)) ->
  exists sa li,
    VariantB.generateThermalLabelHtml logo now (build_order qr sa li) = Ok h.
Proof.
  unfold VariantB.print. destruct (read_params qr) as [[log' sa] li].
  destruct (VariantB.generateThermalLabelHtml logo now (build_order qr sa li))
    as [h'|e] eqn:E; intros H; [|discriminate H].
  injection H as _ H. exists sa, li. now rewrite E, H.
Qed.


(** ** Item rows, as specified *)

Lemma item_row_spec (item : value) : VariantA.item_row item = spec_row item.
Proof.
  unfold VariantA.item_row, spec_row, quantity_text, title_html.
  destruct (Get item "quantity") as [qv|]; [|reflexivity]. cbn [bind].
  destruct (ToString (or_else qv (VInt 1))) as [qt|]; [|reflexivity]. cbn [bind].
  destruct (Get item "title") as [t|]; [|reflexivity]. cbn [bind].
  destruct (Get item "name") as [n|]; [|reflexivity]. cbn [bind].
  destruct (escapeHtml _) as [e|]; [|reflexivity]. cbn [bind].
  unfold row_markup, q. repeat rewrite append_assoc. reflexivity.
Qed.

Lemma mapM_ext {A B : Type} (f g : A -> result B) (l : list A) :
  (forall x, f x = g x) -> mapM f l = mapM g l.
Proof.
  intros H. induction l as [|x l IH]; [reflexivity|].
  cbn [mapM]. now rewrite H, IH.
Qed.



(** ** The barcode, counted *)

Lemma rect_open_rect (x w : Z) : counted rect_open (VariantA.rect x w) 1.
Proof. count_rect. Qed.

(** ** Falsy quantities *)

Lemma field_without_same (k : string) (f : list (string * value)) :
  field (without_field k f) k = VUndefined.
Proof.
  unfold field. induction f as [|[k' v] f IH]; [reflexivity|].
  cbn [without_field filter fst]. destruct (String.eqb k' k) eqn:E; cbn [negb].
  - exact IH.
  - cbn [lookup]. rewrite E. exact IH.
Qed.

Lemma field_without_other (k k0 : string) (f : list (string * value)) :
  String.eqb k0 k = false -> field (without_field k f) k0 = field f k0.
Proof.
  intros Hk. unfold field. induction f as [|[k' v] f IH]; [reflexivity|].
  cbn [without_field filter fst]. destruct (String.eqb k' k) eqn:E; cbn [negb lookup].
  - apply String.eqb_eq in E. subst k'. rewrite String.eqb_sym, Hk. exact IH.
  - destruct (String.eqb k' k0); [reflexivity | exact IH].
Qed.

(** ** The date is read from the clock *)

Lemma same_day_same_date (c1 c2 : clock) :
  year c1 = year c2 -> mon c1 = mon c2 -> day c1 = day c2 ->
  toLocaleDateString c1 = toLocaleDateString c2.
Proof. intros Hy Hm Hd. unfold toLocaleDateString. now rewrite Hy, Hm, Hd. Qed.

(** ** Finding a text in a concatenation *)

Lemma prefix_append_mono (p a b : string) :
  prefix p a = true -> prefix p (a ++ b) = true.
Proof.
  revert a. induction p as [|c p IH]; intros a H; [apply prefix_nil|].
  destruct a as [|x a]; [discriminate|].
  simpl in *. destruct (ascii_dec c x); [now apply IH | discriminate].
Qed.

Lemma occurrences_append_l (p a b : string) (n : nat) :
  n <= occurrences p a -> n <= occurrences p (a ++ b).
Proof.
  intros H. apply Nat.le_trans with (1 := H). clear H.
  induction a as [|x a IH]; [simpl; lia|].
  change (String x a ++ b) with (String x (a ++ b)). cbn [occurrences].
  change (String x (a ++ b)) with (String x a ++ b).
  destruct (prefix p (String x a)) eqn:E.
  - rewrite (prefix_append_mono _ _ b E). lia.
  - destruct (prefix p (String x a ++ b)); lia.
Qed.

Lemma occurrences_append_r (p a b : string) (n : nat) :
  n <= occurrences p b -> n <= occurrences p (a ++ b).
Proof.
  intros H. induction a as [|x a IH]; [exact H|].
  change (String x a ++ b) with (String x (a ++ b)). cbn [occurrences]. lia.
Qed.

Lemma includes_positive (p s : string) :
  1 <= occurrences p s -> includes p s = true.
Proof.
  unfold includes. intros H. destruct (occurrences p s); [lia | reflexivity].
Qed.

(** Look for one occurrence in the parts of a concatenation, closed parts
    by evaluation. *)
Ltac find_occurrence :=
  lazymatch goal with
  | |- _ <= occurrences _ (append _ _) =>
      first [ apply occurrences_append_l; find_occurrence
            | apply occurrences_append_r; find_occurrence ]
  | |- _ <= occurrences _ ?a =>
      tryif is_var a then fail else (vm_compute; lia)
  end.

(** ** The example request *)

Lemma example_label_shows (d L : string) :
  VariantA.label example_order example_address d "" "" = Ok L ->
  1 <= occurrences "Jane Doe" L /\ 1 <= occurrences "Ottawa" L.
Proof.
  intros H. cbv -[append html VariantA.generateBarcodeLines] in H.
  apply Ok_inj in H. subst L. split; find_occurrence.
Qed.

(** * The claims *)

(** C1.  [escapeHtml] leaves none of [<], [>] and the two quotes in its
    output, yet the item row of variant A interpolates [item.quantity]
    without it.  For the line items
    [[{quantity: <script>alert(1)</script>, title: <b>}]] the title is
    escaped and the quantity reaches the document as it was sent. *)
Theorem C1_quantity_is_not_escaped :
  (forall c v out, is_special c = true -> escapeHtml v = Ok out ->
                   has_char c out = false)
  /\ query_lineItems script_query
     = VStr ("[{" ++ q "quantity" ++ ":" ++ q "<script>alert(1)</script>"
             ++ "," ++ q "title" ++ ":" ++ q "<b>" ++ "}]")
  /\ exists h,
      VariantA.print sample_clock script_query = ([], Sent (send h))
      /\ includes "<script>alert(1)</script>" h = true
      /\ includes "&lt;b&gt;" h = true
      /\ includes "<b>" h = false.
Proof.
  split; [intros c v out; apply escapeHtml_no_special|].
  split; [reflexivity|].
  eexists. split; [vm_compute; reflexivity|].
  split; [|split]; vm_compute; reflexivity.
Qed.

(** C2, the claim as stated fails: a negative [labelCount] passes the
    handler's [try] block and makes [Array(copies)] throw outside it, and a
    [lineItems] that is valid JSON but not an array makes [slice] or [map]
    throw; the client gets the framework's error response. *)
Lemma C2_uncaught_exceptions :
  VariantA.print sample_clock (req_query [("labelCount", "-1")])
  = ([], Uncaught RangeError)
  /\ status_of (snd (VariantA.print sample_clock (req_query [("labelCount", "-1")])))
     = 500
  /\ VariantA.print sample_clock (req_query [("lineItems", "5")])
     = ([], Uncaught TypeError).
Proof. repeat split; vm_compute; reflexivity. Qed.

(** C2, amended.  For every request of variant A in which reading
    [shippingAddress] or [lineItems] throws, the error is logged, the
    address is the empty object when [shippingAddress] failed or is absent
    and the parsed one otherwise, the line items are the empty sequence,
    and the response is 200 with the order rendered so, provided
    [orderName] is absent or a string, a parsed address has only string
    fields, and the copy count is a valid array length. *)
Theorem C2_malformed_parameters_degrade (now : clock) (qr : query) (e : exn)
        (sa : value) (c : Z) :
  (malformed (query_shippingAddress qr) e /\ sa = VObj [])
  \/ (truthy (query_shippingAddress qr) = false
      /\ malformed (query_lineItems qr) e /\ sa = VObj [])
  \/ (truthy (query_shippingAddress qr) = true
      /\ parse_param (query_shippingAddress qr) = Ok sa
      /\ malformed (query_lineItems qr) e) ->
  typed_address sa = true ->
  is_text (orderName qr) = true ->
  VariantA.copies_of (labelCount qr) = Ok c ->
  valid_length c = true ->
  exists h,
    VariantA.print now qr = ([e], Sent (send h))
    /\ status_of (snd (VariantA.print now qr)) = 200
    /\ VariantA.generateThermalLabelHtml now (build_order qr sa (VArr [])) c
       = Ok h.
Proof.
  intros Hbad Hsa Hname Hc Hlen.
  assert (Hr : read_params qr = ([e], sa, VArr [])).
  { destruct Hbad as [[H ->] | [(H1 & H2 & ->) | (H1 & H2 & H3)]];
      [ now apply read_params_first_fails
      | now apply read_params_second_fails
      | now apply read_params_keeps_first ]. }
  destruct (render_total now (build_order qr sa (VArr [])) c)
    as (h & L & title & Hh & _); [|exact Hlen|].
  { unfold typed_order. rewrite (order_name_string qr _ _ Hname).
    cbn [build_order shippingAddress lineItems]. now rewrite Hsa. }
  exists h. rewrite (print_A_sent now qr _ _ _ c h Hr Hc Hh).
  split; [reflexivity|]. split; [reflexivity | exact Hh].
Qed.

(** A [shippingAddress] that is no JSON, and a [lineItems] that does not
    decode next to an address that parses. *)
Lemma C2_malformed_parameters_degrade_witness :
  (exists h,
      VariantA.print sample_clock
        (req_query [("orderName", "%231001"); ("shippingAddress", "not json")])
      = ([SyntaxError], Sent (send h)))
  /\ (exists h,
         VariantA.print sample_clock
           (req_query [("shippingAddress", "%7B%22city%22%3A%22Ottawa%22%7D");
                       ("lineItems", "%")])
         = ([URIError], Sent (send h))
         /\ VariantA.generateThermalLabelHtml sample_clock
              (mk_order VUndefined (VStr "Order")
                 (VObj [("city", VStr "Ottawa")]) (VArr [])) 1 = Ok h).
Proof.
  split.
  - destruct (C2_malformed_parameters_degrade sample_clock
                (req_query [("orderName", "%231001");
                            ("shippingAddress", "not json")])
                SyntaxError (VObj []) 1%Z
                (or_introl (conj (conj eq_refl eq_refl) eq_refl))
                eq_refl eq_refl eq_refl eq_refl) as (h & Hp & _).
    exists h. exact Hp.
  - destruct (C2_malformed_parameters_degrade sample_clock
                (req_query [("shippingAddress", "%7B%22city%22%3A%22Ottawa%22%7D");
                            ("lineItems", "%")])
                URIError (VObj [("city", VStr "Ottawa")]) 1%Z
                (or_intror (or_intror
                   (conj eq_refl (conj eq_refl (conj eq_refl eq_refl)))))
                eq_refl eq_refl eq_refl eq_refl) as (h & Hp & _ & Hh).
    exists h. split; [exact Hp | exact Hh].
Defined.

(** C3.  In variant B the handler never reads [labelCount]: for every
    request and every value put in place of [labelCount] the outcome is
    the same; every 200 response holds the opening tag of a label panel
    exactly once; and every request whose order is well typed gets a 200
    response.  The logo is whatever start-up loaded. *)
Theorem C3_variant_B_one_label (file : option (list ascii)) (now : clock)
        (qr : query) (lc : value) :
  VariantB.print (load_logo file) now (with_labelCount lc qr)
  = VariantB.print (load_logo file) now qr
  /\ (forall log h,
        VariantB.print (load_logo file) now qr = (log, Sent (send h)) ->
        occurrences label_open h = 1)
  /\ (forall log f li,
        read_params qr = (log, VObj f, li) ->
        is_text (orderName qr) = true ->
        typed_address (VObj f) = true ->
        exists h, VariantB.print (load_logo file) now qr = (log, Sent (send h))).
Proof.
  split; [apply print_B_ignores_labelCount|]. split.
  - intros log h H. apply print_B_body in H as (sa & li & Hh).
    eapply render_B_count; [apply load_logo_no_lt | exact Hh].
  - intros log f li Hr Hname Ha.
    destruct (render_B_total (load_logo file) now (build_order qr (VObj f) li) f)
      as [h Hh]; [now apply order_name_string | reflexivity | exact Ha |].
    exists h. exact (print_B_sent _ now qr log _ _ h Hr Hh).
Qed.

(** A request with [labelCount=3], and the same with [labelCount=-2]. *)
Lemma C3_variant_B_one_label_witness :
  exists h,
    VariantB.print (load_logo (Some ["P"; "N"; "G"]%char)) sample_clock
      (req_query [("orderName", "%231001"); ("labelCount", "3");
                  ("shippingAddress", "%7B%22name%22%3A%22Jane%20Doe%22%7D")])
    = ([], Sent (send h))
    /\ VariantB.print (load_logo (Some ["P"; "N"; "G"]%char)) sample_clock
         (with_labelCount (VStr "-2")
            (req_query [("orderName", "%231001"); ("labelCount", "3");
                        ("shippingAddress", "%7B%22name%22%3A%22Jane%20Doe%22%7D")]))
       = ([], Sent (send h))
    /\ occurrences label_open h = 1.
Proof.
  destruct (C3_variant_B_one_label (Some ["P"; "N"; "G"]%char) sample_clock
              (req_query [("orderName", "%231001"); ("labelCount", "3");
                          ("shippingAddress", "%7B%22name%22%3A%22Jane%20Doe%22%7D")])
              (VStr "-2")) as (Hsame & Hone & Htotal).
  destruct (Htotal [] [("name", VStr "Jane Doe")] (VArr []) eq_refl eq_refl eq_refl)
    as [h Hh].
  exists h. split; [exact Hh|]. split; [now rewrite Hsame | exact (Hone [] h Hh)].
Defined.





(** C6.  In variant A, for every order name that is a string, the barcode
    is one [rect] per alphanumeric character of the name, the other
    characters being dropped first: the k-th bar is [(code mod 3) + 1]
    wide, has [y = 5] and [height = 30], and stands at [x = 10] plus the
    advances [width + 2] of the bars before it.  [AB1] gives 3 bars and
    [A-B] gives 2. *)
Theorem C6_barcode_bars (s : string) :
  VariantA.generateBarcodeLines (VStr s)
  = Ok (join "" (map bar_svg (spec_bars (alnum_chars s))))
  /\ List.length (spec_bars (alnum_chars s)) = List.length (alnum_chars s)
  /\ occurrences rect_open (join "" (map bar_svg (spec_bars (alnum_chars s))))
     = List.length (alnum_chars s)
  /\ spec_bars (alnum_chars "AB1") = [(10, 3); (15, 1); (18, 2)]%Z
  /\ spec_bars (alnum_chars "A-B") = [(10, 3); (15, 1)]%Z.
Proof.
  split; [apply generateBarcodeLines_string|].
  split; [apply spec_bars_length|].
  split; [|split; reflexivity].
  apply counted_occurrences.
  eapply counted_eq.
  - apply counted_concat with (n := 1). apply Forall_forall.
    intros r Hr. apply in_map_iff in Hr as ([x w] & <- & _).
    rewrite <- rect_bar_svg. apply rect_open_rect.
  - rewrite length_map, spec_bars_length. lia.
Qed.

(** C7, the claim as stated fails: the body holds the recipient as it was
    sent, [Jane Doe]; the upper case is left to the style sheet
    ([text-transform: uppercase]). *)
Lemma C7_name_is_not_upper_cased :
  exists h,
    VariantA.print sample_clock example_query = ([], Sent (send h))
    /\ includes "JANE DOE" h = false
    /\ includes "Jane Doe" h = true.
Proof.
  eexists. split; [vm_compute; reflexivity|].
  split; vm_compute; reflexivity.
Qed.

(** C7, amended.  For the request
    [GET /print?orderName=%231001&labelCount=2&shippingAddress=...] of the
    specification, on any day, variant A answers 200 with a document made
    of two copies of one label separated by one page break; the label
    holds the recipient [Jane Doe] and the city [Ottawa] (neither has a
    character to escape), and the order name [#1001] is the title. *)
Theorem C7_example_request (now : clock) :
  exists h L,
    VariantA.print now example_query = ([], Sent (send h))
    /\ h = VariantA.document "#1001" (L ++ VariantA.page_break ++ L)
    /\ occurrences label_open L = 1
    /\ occurrences label_open h = 2
    /\ occurrences VariantA.page_break h = 1
    /\ includes "Jane Doe" L = true
    /\ includes "Ottawa" L = true.
Proof.
  destruct (render_total now example_order 2 eq_refl eq_refl)
    as (h & L & title & Hh & Hdoc & Htitle & ih & Hih & HL).
  apply Ok_inj in Htitle. apply Ok_inj in Hih. subst title ih.
  cbn [lineItems example_order VariantA.length_of List.length shippingAddress] in HL.
  change (VariantA.more_items_html (Z.of_nat 0 - 5)) with "" in HL.
  change (join "" []) with "" in HL.
  exists h, L.
  split; [exact (print_A_sent now example_query [] example_address (VArr []) 2 h
                   eq_refl eq_refl Hh)|].
  split; [exact Hdoc|].
  split.
  { apply counted_occurrences.
    apply (label_open_label example_order example_address (toLocaleDateString now) "" "" L 0 0 HL);
      [apply toLocaleDateString_no_lt | apply counted_nil | apply counted_nil|].
    intros v b Hb.
    exact (barcode_counted label_open label_open_rect v b Hb). }
  split; [exact (label_open_count now example_order 2 h [] Hh eq_refl (Forall_nil _))|].
  split; [exact (page_break_count now example_order 2 h [] Hh eq_refl (Forall_nil _))|].
  destruct (example_label_shows _ _ HL) as [H1 H2].
  split; now apply includes_positive.
Qed.

(** C8, the claim as stated fails: the same order and copy count give
    different documents on different days, and in variant B with different
    logos. *)
Lemma C8_output_depends_on_the_clock :
  (exists h1 h2,
      VariantA.generateThermalLabelHtml (mk_clock 2026 Nov 1 0)
        (mk_order VUndefined (VStr "Order") (VObj []) (VArr [])) 1 = Ok h1
      /\ VariantA.generateThermalLabelHtml (mk_clock 2026 Nov 2 0)
           (mk_order VUndefined (VStr "Order") (VObj []) (VArr [])) 1 = Ok h2
      /\ String.eqb h1 h2 = false)
  /\ (exists h1 h2,
         VariantB.generateThermalLabelHtml "" (mk_clock 2026 Nov 1 0)
           (mk_order VUndefined (VStr "Order") (VObj []) (VArr [])) = Ok h1
         /\ VariantB.generateThermalLabelHtml "UE5H" (mk_clock 2026 Nov 1 0)
              (mk_order VUndefined (VStr "Order") (VObj []) (VArr [])) = Ok h2
         /\ String.eqb h1 h2 = false).
Proof.
  split; eexists; eexists; (split; [vm_compute; reflexivity|]);
    (split; [vm_compute; reflexivity|]); vm_compute; reflexivity.
Qed.

(** C8, amended.  For a fixed order and copy count, the document is
    determined by the calendar day on which the renderer runs and, in
    variant B, by the logo loaded at start-up: any two invocations on the
    same day give the same result, whatever the time of day. *)
Theorem C8_same_day_same_document (c1 c2 : clock) (o : order) (copies : Z)
        (logo : string) :
  year c1 = year c2 -> mon c1 = mon c2 -> day c1 = day c2 ->
  VariantA.generateThermalLabelHtml c1 o copies
  = VariantA.generateThermalLabelHtml c2 o copies
  /\ VariantB.generateThermalLabelHtml logo c1 o
     = VariantB.generateThermalLabelHtml logo c2 o.
Proof.
  intros Hy Hm Hd.
  unfold VariantA.generateThermalLabelHtml, VariantB.generateThermalLabelHtml.
  now rewrite (same_day_same_date c1 c2 Hy Hm Hd).
Qed.

Lemma C8_same_day_same_document_witness :
  VariantA.generateThermalLabelHtml (mk_clock 2026 Nov 1 0)
    (mk_order VUndefined (VStr "#1001") (VObj []) (VArr [])) 2
  = VariantA.generateThermalLabelHtml (mk_clock 2026 Nov 1 86399999)
      (mk_order VUndefined (VStr "#1001") (VObj []) (VArr [])) 2
  /\ VariantB.generateThermalLabelHtml "UE5H" (mk_clock 2026 Nov 1 0)
       (mk_order VUndefined (VStr "#1001") (VObj []) (VArr []))
     = VariantB.generateThermalLabelHtml "UE5H" (mk_clock 2026 Nov 1 86399999)
         (mk_order VUndefined (VStr "#1001") (VObj []) (VArr [])).
Proof.
  apply (C8_same_day_same_document (mk_clock 2026 Nov 1 0)
           (mk_clock 2026 Nov 1 86399999)
           (mk_order VUndefined (VStr "#1001") (VObj []) (VArr [])) 2 "UE5H");
    reflexivity.
Defined.

(** C9.  The two parameters are read inside one [try], [shippingAddress]
    first.  For every request whose [shippingAddress] is present: when
    reading it throws, [lineItems] is never read, so the outcome is that of
    the same request without [lineItems] and the item list renders empty,
    even when [lineItems] is valid JSON; when it parses to [v] and reading
    [lineItems] throws, the order keeps [v] as its address and only the
    line items fall back to the empty sequence. *)
Theorem C9_single_try_block (qr : query) (e : exn) :
  truthy (query_shippingAddress qr) = true ->
  (parse_param (query_shippingAddress qr) = Throw e ->
   read_params qr = ([e], VObj [], VArr [])
   /\ read_params (without_lineItems qr) = read_params qr
   /\ (forall now, VariantA.print now qr = VariantA.print now (without_lineItems qr))
   /\ VariantA.items_html (VArr []) = Ok "")
  /\ (forall v, parse_param (query_shippingAddress qr) = Ok v ->
      malformed (query_lineItems qr) e ->
      read_params qr = ([e], v, VArr [])
      /\ read_params (without_lineItems qr) = ([], v, VArr [])
      /\ (forall now,
           VariantA.print now qr
           = ([e], snd (VariantA.print now (without_lineItems qr))))).
Proof.
  intros Hsa. split.
  - intros Hp.
    assert (H1 : read_params qr = ([e], VObj [], VArr []))
      by now apply read_params_first_fails.
    assert (H2 : read_params (without_lineItems qr) = ([e], VObj [], VArr []))
      by now apply read_params_first_fails.
    split; [exact H1|]. split; [now rewrite H1, H2|]. split; [|reflexivity].
    intros now. unfold VariantA.print. rewrite H1, H2. reflexivity.
  - intros v Hv Hli.
    assert (H1 : read_params qr = ([e], v, VArr []))
      by now apply read_params_keeps_first.
    assert (H2 : read_params (without_lineItems qr) = ([], v, VArr [])).
    { unfold read_params, without_lineItems. cbn [query_shippingAddress query_lineItems].
      now rewrite Hsa, Hv. }
    split; [exact H1|]. split; [exact H2|].
    intros now. unfold VariantA.print. rewrite H1, H2. reflexivity.
Qed.

(** A malformed address with valid line items, and a valid address with
    malformed line items. *)
Lemma C9_single_try_block_witness :
  (read_params (req_query [("shippingAddress", "{oops"); ("lineItems", "[{}]")])
   = ([SyntaxError], VObj [], VArr []))
  /\ (read_params
        (req_query [("shippingAddress", "%7B%22city%22%3A%22Ottawa%22%7D");
                    ("lineItems", "%")])
      = ([URIError], VObj [("city", VStr "Ottawa")], VArr [])).
Proof.
  split.
  - destruct (C9_single_try_block
                (req_query [("shippingAddress", "{oops"); ("lineItems", "[{}]")])
                SyntaxError eq_refl) as [Ha _].
    destruct (Ha eq_refl) as [H _]. exact H.
  - destruct (C9_single_try_block
                (req_query [("shippingAddress", "%7B%22city%22%3A%22Ottawa%22%7D");
                            ("lineItems", "%")])
                URIError eq_refl) as [_ Hb].
    destruct (Hb (VObj [("city", VStr "Ottawa")]) eq_refl (conj eq_refl eq_refl))
      as [H _].
    exact H.
Defined.

(** C10.  In variant A, for every line item whose quantity is falsy (0,
    the empty string, [null], [false], or no quantity at all), the row
    shows the quantity 1, and the row is the one the item gives once its
    quantity is removed. *)
Theorem C10_falsy_quantity_shows_one (f : list (string * value)) :
  truthy (field f "quantity") = false ->
  quantity_text (VObj f) = Ok "1"
  /\ VariantA.item_row (VObj f)
     = (title <- title_html (VObj f) ;; Ok (row_markup "1" title))
  /\ VariantA.item_row (VObj f)
     = VariantA.item_row (VObj (without_field "quantity" f)).
Proof.
  intros Hq.
  assert (H1 : quantity_text (VObj f) = Ok "1").
  { unfold quantity_text, or_else. cbn [Get bind]. now rewrite Hq. }
  assert (H2 : quantity_text (VObj (without_field "quantity" f)) = Ok "1").
  { unfold quantity_text, or_else. cbn [Get bind].
    now rewrite field_without_same. }
  assert (H3 : title_html (VObj (without_field "quantity" f)) = title_html (VObj f)).
  { unfold title_html. cbn [Get bind].
    now rewrite !field_without_other by reflexivity. }
  split; [exact H1|]. rewrite !item_row_spec. unfold spec_row.
  rewrite H1, H2, H3. split; reflexivity.
Qed.

(** The quantities 0, the empty string and [null]. *)
Lemma C10_falsy_quantity_shows_one_witness :
  quantity_text (VObj [("quantity", VInt 0); ("title", VStr "Widget")]) = Ok "1"
  /\ quantity_text (VObj [("quantity", VStr ""); ("title", VStr "Widget")]) = Ok "1"
  /\ VariantA.item_row (VObj [("quantity", VNull); ("title", VStr "Widget")])
     = Ok (row_markup "1" "Widget").
Proof.
  split; [|split].
  - apply (C10_falsy_quantity_shows_one
             [("quantity", VInt 0); ("title", VStr "Widget")] eq_refl).
  - apply (C10_falsy_quantity_shows_one
             [("quantity", VStr ""); ("title", VStr "Widget")] eq_refl).
  - destruct (C10_falsy_quantity_shows_one
                [("quantity", VNull); ("title", VStr "Widget")] eq_refl)
      as (_ & H & _).
    exact H.
Defined.

(** * Further properties of the code *)

(** ** More on [escapeHtml] *)

Lemma escapeHtml_string (s : string) : escapeHtml (VStr s) = Ok (escape_text s).
Proof. exact (escapeHtml_is_text (VStr s) eq_refl). Qed.

Lemma escape_text_append (a b : string) :
  escape_text (a ++ b) = escape_text a ++ escape_text b.
Proof.
  induction a as [|x a IH]; [reflexivity|].
  cbn [append escape_text]. now rewrite IH, append_assoc.
Qed.

Lemma entity_plain (a : ascii) :
  needs_escape a = false -> entity a = String a EmptyString.
Proof.
  unfold needs_escape, is_special, entity. intros H.
  apply orb_false_iff in H as [H1 H]. apply orb_false_iff in H as [H H5].
  apply orb_false_iff in H as [H H4]. apply orb_false_iff in H as [H2 H3].
  now rewrite H1, H2, H3, H4, H5.
Qed.

Lemma entity_length (a : ascii) :
  1 <= String.length (entity a)
  /\ (needs_escape a = true -> 2 <= String.length (entity a)).
Proof.
  unfold needs_escape, is_special, entity.
  repeat match goal with
         | |- context [Ascii.eqb a ?x] => destruct (Ascii.eqb a x)
         end; cbn; split; try lia; discriminate.
Qed.

Lemma escape_text_length (s : string) :
  String.length s <= String.length (escape_text s).
Proof.
  induction s as [|a s IH]; [reflexivity|].
  cbn [escape_text]. rewrite length_append.
  destruct (entity_length a) as [H _]. simpl. lia.
Qed.

Lemma escape_text_plain (s : string) :
  is_plain s = true -> escape_text s = s.
Proof.
  unfold is_plain. induction s as [|a s IH]; [reflexivity|].
  cbn [all_chars escape_text]. intros H. apply andb_true_iff in H as [Ha Hs].
  apply negb_true_iff in Ha. now rewrite (entity_plain a Ha), (IH Hs).
Qed.

Lemma escape_text_same_length (s : string) :
  String.length (escape_text s) = String.length s -> is_plain s = true.
Proof.
  unfold is_plain. induction s as [|a s IH]; [reflexivity|].
  cbn [escape_text all_chars]. rewrite length_append. intros H.
  pose proof (escape_text_length s) as Hs.
  destruct (entity_length a) as [H1 H2]. simpl in H.
  destruct (needs_escape a) eqn:E.
  - specialize (H2 eq_refl). lia.
  - cbn [negb andb]. apply IH. lia.
Qed.

(** The entity of a character, followed by anything, tells the character
    and what follows. *)
Lemma entity_append_inj (x y : ascii) (u v : string) :
  entity x ++ u = entity y ++ v -> x = y /\ u = v.
Proof.
  unfold entity.
  repeat match goal with
         | |- context [Ascii.eqb ?z ?c] =>
             is_var z;
             let E := fresh "E" in
             destruct (Ascii.eqb z c) eqn:E; [apply Ascii.eqb_eq in E; subst z|]
         end;
    cbn; intros H; try discriminate H;
    try (injection H as H; subst; split; reflexivity);
    injection H as Hc H; subst;
    try match goal with
        | E : Ascii.eqb ?c ?c = false |- _ =>
            rewrite Ascii.eqb_refl in E; discriminate E
        end;
    split; reflexivity.
Qed.

Lemma escape_text_inj (a b : string) : escape_text a = escape_text b -> a = b.
Proof.
  revert b. induction a as [|x a IH]; intros [|y b] H.
  - reflexivity.
  - cbn [escape_text] in H. apply (f_equal String.length) in H.
    rewrite length_append in H. destruct (entity_length y). simpl in H. lia.
  - cbn [escape_text] in H. apply (f_equal String.length) in H.
    rewrite length_append in H. destruct (entity_length x). simpl in H. lia.
  - cbn [escape_text] in H. apply entity_append_inj in H as [-> H].
    f_equal. now apply IH.
Qed.

(** X1.  [escapeHtml] works character by character: escaping the
    concatenation of two texts gives the concatenation of the two escaped
    texts, so a text escaped in pieces is escaped as a whole. *)
Theorem X1_escapeHtml_concat (a b : string) :
  escapeHtml (VStr (a ++ b))
  = (x <- escapeHtml (VStr a) ;; y <- escapeHtml (VStr b) ;; Ok (x ++ y)).
Proof.
  rewrite !escapeHtml_string. cbn [bind]. now rewrite escape_text_append.
Qed.

(** X2.  [escapeHtml] returns a text unchanged exactly when the text holds
    none of [&], [<], [>] and the two quotes. *)
Theorem X2_escapeHtml_unchanged_iff_plain (s : string) :
  escapeHtml (VStr s) = Ok s <-> is_plain s = true.
Proof.
  rewrite escapeHtml_string. split.
  - intros H. apply Ok_inj in H. apply escape_text_same_length. now rewrite H.
  - intros H. now rewrite escape_text_plain.
Qed.

(** X3.  [escapeHtml] loses nothing: two texts with the same escaped form
    are the same text. *)
Theorem X3_escapeHtml_injective (a b : string) :
  escapeHtml (VStr a) = escapeHtml (VStr b) -> a = b.
Proof.
  rewrite !escapeHtml_string. intros H. apply Ok_inj in H.
  now apply escape_text_inj.
Qed.

Lemma X3_escapeHtml_injective_witness :
  escapeHtml (VStr ("Tom" ++ " & Jerry")) = Ok "Tom &amp; Jerry"
  /\ "Tom" ++ " & Jerry" = "Tom & Jerry".
Proof.
  split; [reflexivity|].
  apply (X3_escapeHtml_injective ("Tom" ++ " & Jerry") "Tom & Jerry").
  reflexivity.
Defined.

(** ** More on the barcode *)

Lemma bar_width_range (c : ascii) : (1 <= bar_width c <= 3)%Z.
Proof.
  unfold bar_width.
  pose proof (Z.mod_pos_bound (Z.of_nat (nat_of_ascii c)) 3 eq_refl). lia.
Qed.

Lemma bars_from_nth (chars : list ascii) (x0 : Z) (k : nat) (x w : Z) :
  nth_error (bars_from x0 chars) k = Some (x, w) ->
  (1 <= w <= 3)%Z
  /\ (x0 + 3 * Z.of_nat k <= x <= x0 + 5 * Z.of_nat k)%Z
  /\ (forall x' w', nth_error (bars_from x0 chars) (S k) = Some (x', w') ->
                    x' = (x + w + 2)%Z).
Proof.
  revert x0 k. induction chars as [|c chars IH]; intros x0 k H.
  - destruct k; discriminate H.
  - destruct k as [|k]; cbn [bars_from nth_error] in *.
    + injection H as <- <-. pose proof (bar_width_range c).
      split; [assumption|]. split; [lia|].
      intros x' w' H'. destruct chars as [|c' chars]; [discriminate H'|].
      cbn [bars_from nth_error] in H'. injection H' as <- _. lia.
    + destruct (IH _ _ H) as (Hw & Hx & Hnext).
      pose proof (bar_width_range c).
      split; [assumption|]. split; [lia|]. exact Hnext.
Qed.

Lemma rect_of_bar (b : Z * Z) : bar_svg b = VariantA.rect (fst b) (snd b).
Proof. destruct b as [x w]. symmetry. apply rect_bar_svg. Qed.

Lemma filter_chars_idempotent (f : ascii -> bool) (s : string) :
  filter_chars f (filter_chars f s) = filter_chars f s.
Proof.
  induction s as [|a s IH]; [reflexivity|].
  cbn [filter_chars]. destruct (f a) eqn:E; [|exact IH].
  cbn [filter_chars]. now rewrite E, IH.
Qed.

(** X4.  The geometry of the bars: for every name that is a string, the
    barcode is the bars [bars] drawn by the template [rect], one per
    alphanumeric character; every bar is 1 to 3 wide; the k-th bar stands
    between 10 + 3k and 10 + 5k; the next bar starts 2 after its end, so
    bars never touch; and when the name has at most 38 alphanumeric
    characters every bar ends within the 200 units of the view box, while
    every bar after the 64th lies beyond it. *)
Theorem X4_barcode_geometry (s : string) :
  exists bars,
    VariantA.generateBarcodeLines (VStr s)
    = Ok (join "" (map (fun b => VariantA.rect (fst b) (snd b)) bars))
    /\ List.length bars = List.length (alnum_chars s)
    /\ forall k x w,
        nth_error bars k = Some (x, w) ->
        (1 <= w <= 3)%Z
        /\ (10 + 3 * Z.of_nat k <= x <= 10 + 5 * Z.of_nat k)%Z
        /\ (forall x' w', nth_error bars (S k) = Some (x', w') ->
                          x' = (x + w + 2)%Z)
        /\ (List.length (alnum_chars s) <= 38 -> (x + w <= 200)%Z)
        /\ (64 <= k -> (200 < x)%Z).
Proof.
  exists (spec_bars (alnum_chars s)).
  split.
  { rewrite generateBarcodeLines_string. do 2 f_equal.
    apply map_ext. intros b. apply rect_of_bar. }
  split; [apply spec_bars_length|].
  intros k x w H.
  assert (Hk : k < List.length (alnum_chars s)).
  { rewrite <- spec_bars_length. apply nth_error_Some. now rewrite H. }
  rewrite <- bars_from_spec in *.
  destruct (bars_from_nth _ _ _ _ _ H) as (Hw & Hx & Hnext).
  split; [assumption|]. split; [assumption|]. split; [assumption|].
  split; intros Hlen; lia.
Qed.

(** X5.  Only the alphanumeric characters of the name reach the barcode:
    the barcode of a name is the barcode of its alphanumeric characters,
    and it is empty exactly when the name has none. *)
Theorem X5_barcode_reads_alphanumerics_only (s : string) :
  VariantA.generateBarcodeLines (VStr s)
  = VariantA.generateBarcodeLines (VStr (filter_chars is_alnum s))
  /\ (VariantA.generateBarcodeLines (VStr s) = Ok "" <-> alnum_chars s = []).
Proof.
  split.
  - rewrite !generateBarcodeLines_string. unfold alnum_chars.
    now rewrite filter_chars_idempotent.
  - rewrite generateBarcodeLines_string. split.
    + intros H. apply Ok_inj in H.
      destruct (alnum_chars s) as [|c chars] eqn:E; [reflexivity|].
      rewrite spec_bars_cons in H. cbn [map join String.concat] in H.
      destruct (map bar_svg _) in H; discriminate H.
    + intros ->. reflexivity.
Qed.

(** ** What can be thrown *)

Lemma only_TypeError_Ok {A : Type} (a : A) : only_TypeError (Ok a).
Proof. intros e H. discriminate H. Qed.

Lemma only_TypeError_Throw {A : Type} : only_TypeError (@Throw A TypeError).
Proof. intros e H. now injection H as <-. Qed.

Lemma only_TypeError_bind {A B : Type} (c : result A) (k : A -> result B) :
  only_TypeError c -> (forall a, c = Ok a -> only_TypeError (k a)) ->
  only_TypeError (bind c k).
Proof.
  unfold only_TypeError. intros Hc Hk e. destruct c as [a|e']; cbn [bind].
  - now apply Hk.
  - intros H. injection H as <-. now apply Hc.
Qed.

Lemma ToString_only_TypeError (v : value) : only_TypeError (ToString v).
Proof.
  revert v. fix IH 1. intros v. destruct v as [| |b|m s|s|l|f].
  - apply only_TypeError_Ok.
  - apply only_TypeError_Ok.
  - destruct b; apply only_TypeError_Ok.
  - apply only_TypeError_Ok.
  - apply only_TypeError_Ok.
  - cbn [ToString]. apply only_TypeError_bind; [|intros; apply only_TypeError_Ok].
    induction l as [|x l IHl]; [apply only_TypeError_Ok|].
    apply only_TypeError_bind.
    + pose proof (IH x) as Hx.
      destruct x; try exact Hx; apply only_TypeError_Ok.
    + intros a _. apply only_TypeError_bind; [exact IHl|].
      intros; apply only_TypeError_Ok.
  - cbn [ToString]. destruct (has_own "toString" f);
      [apply only_TypeError_Throw | apply only_TypeError_Ok].
Qed.

Lemma Get_only_TypeError (v : value) (k : string) : only_TypeError (Get v k).
Proof.
  destruct v; cbn [Get];
    first [apply only_TypeError_Ok | apply only_TypeError_Throw].
Qed.

Lemma escapeHtml_only_TypeError (v : value) : only_TypeError (escapeHtml v).
Proof.
  unfold escapeHtml. destruct (negb (truthy v)); [apply only_TypeError_Ok|].
  apply only_TypeError_bind; [apply ToString_only_TypeError|].
  intros; apply only_TypeError_Ok.
Qed.

Lemma generateBarcodeLines_only_TypeError (v : value) :
  only_TypeError (VariantA.generateBarcodeLines v).
Proof.
  destruct v as [| |b|m s|s|l|f];
    try (unfold VariantA.generateBarcodeLines;
         destruct (negb (truthy _));
         first [apply only_TypeError_Ok | apply only_TypeError_Throw]).
  rewrite generateBarcodeLines_string. apply only_TypeError_Ok.
Qed.

Lemma mapM_only_TypeError {A B : Type} (f : A -> result B) (l : list A) :
  (forall x, only_TypeError (f x)) -> only_TypeError (mapM f l).
Proof.
  intros Hf. induction l as [|x l IH]; [apply only_TypeError_Ok|].
  cbn [mapM]. apply only_TypeError_bind; [apply Hf|]. intros y _.
  apply only_TypeError_bind; [exact IH|]. intros; apply only_TypeError_Ok.
Qed.

(** A sequence of steps each of which throws nothing but a [TypeError]. *)
Ltac only_type_errors :=
  repeat first
    [ apply only_TypeError_Ok
    | apply only_TypeError_Throw
    | apply Get_only_TypeError
    | apply ToString_only_TypeError
    | apply escapeHtml_only_TypeError
    | apply generateBarcodeLines_only_TypeError
    | apply only_TypeError_bind; [|intros ? _] ].

Lemma item_row_only_TypeError (item : value) :
  only_TypeError (VariantA.item_row item).
Proof. unfold VariantA.item_row. only_type_errors. Qed.

Lemma items_html_only_TypeError (li : value) :
  only_TypeError (VariantA.items_html li).
Proof.
  destruct li; cbn [VariantA.items_html]; try apply only_TypeError_Throw.
  apply only_TypeError_bind;
    [apply mapM_only_TypeError, item_row_only_TypeError|].
  intros; apply only_TypeError_Ok.
Qed.

Lemma optional_line_only_TypeError (v : value) (before after : string) :
  only_TypeError (VariantA.optional_line v before after).
Proof.
  unfold VariantA.optional_line. destruct (truthy v); only_type_errors.
Qed.

Lemma label_only_TypeError (o : order) (sa : value) (d items more : string) :
  only_TypeError (VariantA.label o sa d items more).
Proof.
  unfold VariantA.label.
  repeat first [ apply optional_line_only_TypeError
               | progress only_type_errors ].
Qed.

Lemma Array_fill_error (n : Z) (e : exn) :
  Array_fill n = Throw e -> e = RangeError /\ valid_length n = false.
Proof.
  unfold Array_fill, valid_length.
  destruct ((0 <=? n) && (n <? 4294967296))%Z; [discriminate|].
  intros H. injection H as <-. now split.
Qed.

Lemma render_A_errors (now : clock) (o : order) (copies : Z) (e : exn) :
  VariantA.generateThermalLabelHtml now o copies = Throw e ->
  e = TypeError \/ (e = RangeError /\ valid_length copies = false).
Proof.
  unfold VariantA.generateThermalLabelHtml.
  destruct (VariantA.items_html _) as [ih|e1] eqn:E1; cbn [bind].
  2:{ intros H. injection H as <-. left.
      now apply (items_html_only_TypeError _ _ E1). }
  destruct (Array_fill copies) as [slots|e2] eqn:E2; cbn [bind].
  2:{ intros H. injection H as <-. right. now apply Array_fill_error. }
  destruct (mapM _ slots) as [labels|e3] eqn:E3; cbn [bind].
  2:{ intros H. injection H as <-. left.
      refine (mapM_only_TypeError _ slots _ _ E3).
      intros _. apply label_only_TypeError. }
  destruct (escapeHtml (name o)) as [t|e4] eqn:E4; cbn [bind]; [discriminate|].
  intros H. injection H as <-. left. now apply (escapeHtml_only_TypeError _ _ E4).
Qed.

Lemma toUpperCase_only_TypeError (v : value) : only_TypeError (VariantB.toUpperCase v).
Proof.
  destruct v; cbn [VariantB.toUpperCase];
    first [apply only_TypeError_Ok | apply only_TypeError_Throw].
Qed.

Lemma first_name_only_TypeError (sa : value) : only_TypeError (VariantB.first_name sa).
Proof.
  unfold VariantB.first_name. apply only_TypeError_bind; [apply Get_only_TypeError|].
  intros fn _. destruct (truthy fn); [apply only_TypeError_Ok|].
  apply only_TypeError_bind; [apply Get_only_TypeError|].
  intros nm _. destruct (truthy nm); [|apply only_TypeError_Ok].
  destruct nm; first [apply only_TypeError_Ok | apply only_TypeError_Throw].
Qed.

Lemma render_B_errors (logo : string) (now : clock) (o : order) :
  only_TypeError (VariantB.generateThermalLabelHtml logo now o).
Proof.
  unfold VariantB.generateThermalLabelHtml. cbv zeta.
  apply only_TypeError_bind; [apply first_name_only_TypeError | intros fn _].
  apply only_TypeError_bind; [apply escapeHtml_only_TypeError | intros t _].
  apply only_TypeError_bind; [apply toUpperCase_only_TypeError | intros u _].
  only_type_errors.
Qed.

Lemma parseInt_only_TypeError (v : value) : only_TypeError (parseInt v).
Proof. unfold parseInt. only_type_errors. Qed.

Lemma read_params_log (qr : query) :
  List.length (fst (fst (read_params qr))) <= 1.
Proof.
  unfold read_params.
  destruct (if truthy (query_shippingAddress qr) then _ else _); [|simpl; lia].
  destruct (if truthy (query_lineItems qr) then _ else _); simpl; lia.
Qed.

(** X6.  What the client can see of an exception: in variant A the handler
    lets only a [TypeError] or a [RangeError] escape, in variant B only a
    [TypeError]; the errors of decoding and parsing the parameters are
    always caught, and at most one of them is logged per request. *)
Theorem X6_errors_that_escape (logo : string) (now : clock) (qr : query) :
  match snd (VariantA.print now qr) with
  | Uncaught SyntaxError | Uncaught URIError => False
  | _ => True
  end
  /\ match snd (VariantB.print logo now qr) with
     | Sent _ | Uncaught TypeError => True
     | _ => False
     end
  /\ List.length (fst (VariantA.print now qr)) <= 1
  /\ List.length (fst (VariantB.print logo now qr)) <= 1.
Proof.
  pose proof (read_params_log qr) as Hlog.
  unfold VariantA.print, VariantB.print.
  destruct (read_params qr) as [[log sa] li]. cbn [fst snd] in *.
  split; [|split; [|split; assumption]].
  - destruct (VariantA.copies_of (labelCount qr)) as [c|e1] eqn:E1; cbn [bind].
    + destruct (VariantA.generateThermalLabelHtml now _ c) as [h|e] eqn:E;
        [exact I|].
      destruct (render_A_errors _ _ _ _ E) as [-> | [-> _]]; exact I.
    + unfold VariantA.copies_of in E1.
      destruct (parseInt _) as [n|e2] eqn:E2; cbn [bind] in E1; [discriminate|].
      injection E1 as <-. now rewrite (parseInt_only_TypeError _ _ E2).
  - destruct (VariantB.generateThermalLabelHtml logo now _) as [h|e] eqn:E;
      [exact I|].
    now rewrite (render_B_errors _ _ _ _ E).
Qed.

Lemma copies_of_nonzero (lc : value) (k : Z) :
  VariantA.copies_of lc = Ok k -> k <> 0%Z.
Proof.
  unfold VariantA.copies_of.
  destruct (parseInt _) as [[n|]|e]; cbn [bind]; intros H;
    try discriminate H; apply Ok_inj in H; subst k; [|lia].
  destruct (Z.eqb_spec n 0); lia.
Qed.

Lemma valid_length_positive (k : Z) :
  valid_length k = true -> k <> 0%Z -> (1 <= k)%Z.
Proof. unfold valid_length. lia. Qed.

(** X7.  One label per copy: for every request of variant A whose order is
    well typed and whose copy count [k] is a valid array length, [k] is at
    least 1 and the response is a 200 document made of [k] copies of one
    label separated by [k - 1] page breaks. *)
Theorem X7_one_label_per_copy (now : clock) (qr : query) (log : list exn)
        (sa li : value) (k : Z) :
  read_params qr = (log, sa, li) ->
  typed_order (build_order qr sa li) = true ->
  VariantA.copies_of (labelCount qr) = Ok k ->
  valid_length k = true ->
  (1 <= k)%Z
  /\ exists h L title,
      VariantA.print now qr = (log, Sent (send h))
      /\ h = VariantA.document title
               (join VariantA.page_break (repeat L (Z.to_nat k)))
      /\ occurrences label_open h = Z.to_nat k
      /\ occurrences VariantA.page_break h = Z.to_nat k - 1.
Proof.
  intros Hr Ht Hc Hk.
  split; [apply valid_length_positive; [exact Hk | exact (copies_of_nonzero _ _ Hc)]|].
  destruct (render_total now (build_order qr sa li) k Ht Hk)
    as (h & L & title & Hh & Hdoc & _).
  exists h, L, title.
  split; [exact (print_A_sent now qr log sa li k h Hr Hc Hh)|].
  split; [exact Hdoc|].
  unfold typed_order in Ht. apply andb_true_iff in Ht as [_ Hitems].
  cbn [build_order lineItems] in Hitems.
  destruct li as [| |b|m s|s|l|g]; try discriminate.
  cbn [typed_items] in Hitems.
  split.
  - exact (label_open_count now _ k h l Hh eq_refl (typed_items_plain l Hitems)).
  - exact (page_break_count now _ k h l Hh eq_refl (typed_items_plain l Hitems)).
Qed.

(** The request [labelCount=3abc] with an address: [parseInt] reads 3. *)
Lemma X7_one_label_per_copy_witness :
  exists h L title,
    VariantA.print sample_clock
      (req_query [("labelCount", "3abc");
                  ("shippingAddress", "%7B%22name%22%3A%22Jane%20Doe%22%7D")])
    = ([], Sent (send h))
    /\ h = VariantA.document title
             (L ++ VariantA.page_break ++ L ++ VariantA.page_break ++ L)
    /\ occurrences label_open h = 3
    /\ occurrences VariantA.page_break h = 2.
Proof.
  destruct (X7_one_label_per_copy sample_clock
              (req_query [("labelCount", "3abc");
                          ("shippingAddress", "%7B%22name%22%3A%22Jane%20Doe%22%7D")])
              [] (VObj [("name", VStr "Jane Doe")]) (VArr []) 3
              eq_refl eq_refl eq_refl eq_refl)
    as (_ & h & L & title & Hp & Hdoc & Hl & Hb).
  exists h, L, title. split; [exact Hp|]. split; [exact Hdoc|].
  split; [exact Hl | exact Hb].
Defined.



(** A label needs an order name that is falsy or a string: anything else
    makes [text.replace] throw in [generateBarcodeLines]. *)
Lemma label_name (o : order) (sa : value) (d items more L : string) :
  VariantA.label o sa d items more = Ok L ->
  truthy (name o) = false \/ is_string (name o) = true.
Proof.
  intros H. unfold VariantA.label in H. inv_ok H.
  match goal with
  | E : VariantA.generateBarcodeLines _ = Ok _ |- _ =>
      unfold VariantA.generateBarcodeLines in E;
      destruct (truthy (name o)); [|now left];
      destruct (name o); try discriminate E; now right
  end.
Qed.

Lemma render_A_name (now : clock) (o : order) (copies : Z) (h : string) :
  VariantA.generateThermalLabelHtml now o copies = Ok h ->
  (1 <= copies)%Z ->
  truthy (name o) = false \/ is_string (name o) = true.
Proof.
  intros H Hc. unfold VariantA.generateThermalLabelHtml in H. inv_ok H.
  match goal with
  | F : Array_fill _ = Ok ?slots, E : mapM _ ?slots = Ok _ |- _ =>
      unfold Array_fill in F;
      destruct ((0 <=? copies) && (copies <? 4294967296))%Z; [|discriminate F];
      apply Ok_inj in F; subst slots;
      destruct (Z.to_nat copies) as [|n] eqn:En; [lia|];
      cbn [repeat mapM] in E; inv_ok E
  end.
  eapply label_name. eassumption.
Qed.

(** X9.  An [orderName] that is truthy and no string (the framework hands
    over an array when the parameter is given twice) is never served by
    variant A: the barcode needs a string, the [TypeError] escapes the
    handler and the client gets the status 500. *)
Theorem X9_order_name_must_be_text (now : clock) (qr : query) :
  truthy (orderName qr) = true ->
  is_string (orderName qr) = false ->
  exists e,
    snd (VariantA.print now qr) = Uncaught e
    /\ status_of (snd (VariantA.print now qr)) = 500
    /\ (e = TypeError \/ e = RangeError).
Proof.
  intros Ht Hs. unfold VariantA.print.
  destruct (read_params qr) as [[log sa] li]. cbn [fst snd].
  destruct (VariantA.copies_of (labelCount qr)) as [c|e1] eqn:E1; cbn [bind].
  - destruct (VariantA.generateThermalLabelHtml now _ c) as [h|e] eqn:E.
    + exfalso.
      assert (Hv : valid_length c = true).
      { unfold VariantA.generateThermalLabelHtml in E. inv_ok E.
        match goal with
        | F : Array_fill _ = Ok _ |- _ =>
            unfold Array_fill in F; unfold valid_length;
            destruct ((0 <=? c) && (c <? 4294967296))%Z;
            [reflexivity | discriminate F]
        end. }
      pose proof (valid_length_positive c Hv (copies_of_nonzero _ _ E1)) as Hc.
      destruct (render_A_name _ _ _ _ E Hc) as [H|H];
        cbn [build_order name] in H; unfold or_else in H; rewrite Ht in H;
        congruence.
    + exists e. split; [reflexivity|]. split; [reflexivity|].
      destruct (render_A_errors _ _ _ _ E) as [->|[-> _]]; auto.
  - exists e1. split; [reflexivity|]. split; [reflexivity|]. left.
    unfold VariantA.copies_of in E1.
    destruct (parseInt _) as [n|e2] eqn:E2; cbn [bind] in E1; [discriminate|].
    injection E1 as <-. exact (parseInt_only_TypeError _ _ E2).
Qed.

(** [orderName] given twice: variant A fails, variant B prints the two
    names joined by a comma. *)
Lemma X9_order_name_must_be_text_witness :
  snd (VariantA.print sample_clock
         (req_query [("orderName", "A"); ("orderName", "B")]))
  = Uncaught TypeError
  /\ exists h,
      VariantB.print "" sample_clock
        (req_query [("orderName", "A"); ("orderName", "B")])
      = ([], Sent (send h))
      /\ includes "Order A,B</div>" h = true.
Proof.
  destruct (X9_order_name_must_be_text sample_clock
              (req_query [("orderName", "A"); ("orderName", "B")])
              eq_refl eq_refl) as (e & He & _).
  split; [rewrite He; vm_compute in He; symmetry; exact He|].
  eexists. split; [vm_compute; reflexivity|]. vm_compute. reflexivity.
Defined.

(** X10.  [orderId] is taken from the query and never read again: in both
    variants the log and the response are the same whatever its value. *)
Theorem X10_orderId_is_never_read (logo : string) (now : clock) (qr : query)
        (v : value) :
  VariantA.print now (with_orderId v qr) = VariantA.print now qr
  /\ VariantB.print logo now (with_orderId v qr) = VariantB.print logo now qr.
Proof. split; reflexivity. Qed.

Lemma read_params_address (qr : query) :
  snd (fst (read_params (without_lineItems qr))) = snd (fst (read_params qr)).
Proof.
  unfold read_params, without_lineItems.
  cbn [query_shippingAddress query_lineItems truthy].
  destruct (if truthy (query_shippingAddress qr) then _ else _); [|reflexivity].
  destruct (if truthy (query_lineItems qr) then _ else _); reflexivity.
Qed.

(** X11.  In variant B [lineItems] is parsed and never rendered: the
    response is the one of the same request without [lineItems]; only the
    log can differ. *)
Theorem X11_variant_B_ignores_lineItems (logo : string) (now : clock)
        (qr : query) :
  snd (VariantB.print logo now qr)
  = snd (VariantB.print logo now (without_lineItems qr)).
Proof.
  pose proof (read_params_address qr) as H.
  unfold VariantB.print.
  destruct (read_params qr) as [[log sa] li].
  destruct (read_params (without_lineItems qr)) as [[log' sa'] li'].
  cbn [fst snd] in *. subst sa'. reflexivity.
Qed.

(** X12.  A falsy [orderName] (absent or empty) is served as the order
    name [Order], in both variants. *)
Theorem X12_default_order_name (logo : string) (now : clock) (qr : query) :
  truthy (orderName qr) = false ->
  VariantA.print now qr = VariantA.print now (with_orderName (VStr "Order") qr)
  /\ VariantB.print logo now qr
     = VariantB.print logo now (with_orderName (VStr "Order") qr).
Proof.
  intros H.
  assert (Hb : forall sa li,
             build_order qr sa li
             = build_order (with_orderName (VStr "Order") qr) sa li).
  { intros sa li. unfold build_order, or_else. cbn [orderName with_orderName orderId].
    now rewrite H. }
  unfold VariantA.print, VariantB.print.
  change (read_params (with_orderName (VStr "Order") qr)) with (read_params qr).
  change (labelCount (with_orderName (VStr "Order") qr)) with (labelCount qr).
  destruct (read_params qr) as [[log sa] li]. rewrite <- Hb. split; reflexivity.
Qed.

Lemma X12_default_order_name_witness :
  VariantA.print sample_clock (req_query [("orderName", "")])
  = VariantA.print sample_clock (req_query [("orderName", "Order")]).
Proof.
  apply (X12_default_order_name "" sample_clock (req_query [("orderName", "")])
           eq_refl).
Defined.

(** ** Addresses and items that are no objects *)

Lemma Get_non_object (v : value) (k : string) :
  is_object v = false -> truthy v = true -> Get v k = Ok VUndefined.
Proof. destruct v; try discriminate; reflexivity. Qed.

Lemma address_or_empty (v : value) (k : string) :
  is_object v = false -> Get (or_else v (VObj [])) k = Ok VUndefined.
Proof.
  intros H. unfold or_else. destruct (truthy v) eqn:E; [|reflexivity].
  now apply Get_non_object.
Qed.

Lemma label_empty_address (o : order) (sa : value) (d items more : string) :
  (forall k, Get sa k = Ok VUndefined) ->
  VariantA.label o sa d items more
  = VariantA.label (with_address (VObj []) o) (VObj []) d items more.
Proof.
  intros H. unfold VariantA.label. cbn [with_address name]. rewrite !H.
  reflexivity.
Qed.

Lemma first_name_empty_address (sa : value) :
  (forall k, Get sa k = Ok VUndefined) ->
  VariantB.first_name sa = VariantB.first_name (VObj []).
Proof.
  intros H. unfold VariantB.first_name. rewrite !H. reflexivity.
Qed.

Lemma bind_ext {A B : Type} (c : result A) (k1 k2 : A -> result B) :
  (forall a, k1 a = k2 a) -> bind c k1 = bind c k2.
Proof. intros H. destruct c; [apply H | reflexivity]. Qed.

(** X13.  A [shippingAddress] that is no object (a number, a text, an
    array, [null], ...) is rendered as the empty address, in both
    variants. *)
Theorem X13_address_that_is_no_object (logo : string) (now : clock) (o : order)
        (copies : Z) :
  is_object (shippingAddress o) = false ->
  VariantA.generateThermalLabelHtml now o copies
  = VariantA.generateThermalLabelHtml now (with_address (VObj []) o) copies
  /\ VariantB.generateThermalLabelHtml logo now o
     = VariantB.generateThermalLabelHtml logo now (with_address (VObj []) o).
Proof.
  intros H.
  unfold VariantA.generateThermalLabelHtml, VariantB.generateThermalLabelHtml.
  cbn [with_address shippingAddress lineItems name].
  change (or_else (VObj []) (VObj [])) with (VObj []).
  split.
  - apply bind_ext. intros ih. apply bind_ext. intros slots.
    apply (f_equal (fun c => bind c _)). apply mapM_ext.
    intros _. apply label_empty_address. intros k. now apply address_or_empty.
  - rewrite (first_name_empty_address (or_else (shippingAddress o) (VObj [])));
      [reflexivity|].
    intros k. now apply address_or_empty.
Qed.

Lemma X13_address_that_is_no_object_witness :
  VariantA.generateThermalLabelHtml sample_clock
    (mk_order VUndefined (VStr "#1001") (VStr "12 Main Street") (VArr [])) 1
  = VariantA.generateThermalLabelHtml sample_clock
      (mk_order VUndefined (VStr "#1001") (VObj []) (VArr [])) 1.
Proof.
  apply (X13_address_that_is_no_object "" sample_clock
           (mk_order VUndefined (VStr "#1001") (VStr "12 Main Street") (VArr []))
           1 eq_refl).
Defined.

Lemma mapM_throws {A B : Type} (f : A -> result B) (l : list A) (k : nat)
      (x : A) (e : exn) :
  nth_error l k = Some x -> f x = Throw e -> exists e', mapM f l = Throw e'.
Proof.
  revert k. induction l as [|y l IH]; intros k Hk Hx; [now destruct k|].
  destruct k as [|k]; cbn [nth_error] in Hk.
  - injection Hk as ->. exists e. cbn [mapM]. now rewrite Hx.
  - cbn [mapM]. destruct (f y) as [b|e1]; [|now exists e1]. cbn [bind].
    destruct (IH k Hk Hx) as [e' ->]. now exists e'.
Qed.

Lemma nth_error_firstn_lt {A : Type} (l : list A) (n k : nat) (x : A) :
  k < n -> nth_error l k = Some x -> nth_error (firstn n l) k = Some x.
Proof.
  revert n k. induction l as [|y l IH]; intros n k Hk H; [now destruct k|].
  destruct n as [|n]; [lia|]. destruct k as [|k]; [exact H|].
  cbn [firstn nth_error] in *. apply IH; [lia | exact H].
Qed.

(** X14.  A [null] among the first five line items makes variant A throw a
    [TypeError] before anything is rendered, whatever the copy count. *)
Theorem X14_null_item (now : clock) (o : order) (copies : Z) (l : list value)
        (k : nat) (item : value) :
  lineItems o = VArr l ->
  nth_error l k = Some item ->
  is_nullish item = true ->
  k < 5 ->
  VariantA.generateThermalLabelHtml now o copies = Throw TypeError.
Proof.
  intros Hl Hk Hn Hlt. unfold VariantA.generateThermalLabelHtml. rewrite Hl.
  change (or_else (VArr l) (VArr [])) with (VArr l). cbn [VariantA.items_html].
  destruct (mapM_throws VariantA.item_row (firstn 5 l) k item TypeError) as [e He].
  - now apply nth_error_firstn_lt.
  - now destruct item.
  - rewrite He. cbn [bind].
    now rewrite (mapM_only_TypeError _ _ item_row_only_TypeError _ He).
Qed.

Lemma X14_null_item_witness :
  VariantA.generateThermalLabelHtml sample_clock
    (mk_order VUndefined (VStr "#1001") (VObj [])
       (VArr [VObj [("title", VStr "Widget")]; VNull])) (-1)
  = Throw TypeError.
Proof.
  apply (X14_null_item sample_clock
           (mk_order VUndefined (VStr "#1001") (VObj [])
              (VArr [VObj [("title", VStr "Widget")]; VNull])) (-1)
           [VObj [("title", VStr "Widget")]; VNull] 1 VNull
           eq_refl eq_refl eq_refl).
  lia.
Defined.

(** X15.  Variant A reads the first five line items and the length of the
    list, nothing else: two lists of the same length with the same first
    five items give the same result. *)
Theorem X15_items_beyond_the_fifth (now : clock) (o : order) (copies : Z)
        (l1 l2 : list value) :
  firstn 5 l1 = firstn 5 l2 ->
  List.length l1 = List.length l2 ->
  VariantA.generateThermalLabelHtml now (with_items (VArr l1) o) copies
  = VariantA.generateThermalLabelHtml now (with_items (VArr l2) o) copies.
Proof.
  intros H5 Hlen. unfold VariantA.generateThermalLabelHtml.
  cbn [with_items lineItems shippingAddress name].
  change (or_else (VArr l1) (VArr [])) with (VArr l1).
  change (or_else (VArr l2) (VArr [])) with (VArr l2).
  cbn [VariantA.items_html VariantA.length_of]. rewrite H5, Hlen. reflexivity.
Qed.

(** A sixth item that is [null]: harmless. *)
Lemma X15_items_beyond_the_fifth_witness :
  VariantA.generateThermalLabelHtml sample_clock
    (mk_order VUndefined (VStr "#1001") (VObj [])
       (VArr (firstn 5 seven_items ++ [VNull]))) 1
  = VariantA.generateThermalLabelHtml sample_clock
      (mk_order VUndefined (VStr "#1001") (VObj [])
         (VArr (firstn 6 seven_items))) 1.
Proof.
  apply (X15_items_beyond_the_fifth sample_clock
           (mk_order VUndefined (VStr "#1001") (VObj []) (VArr [])) 1
           (firstn 5 seven_items ++ [VNull]) (firstn 6 seven_items)
           eq_refl eq_refl).
Defined.

(** X16.  The row of a line item that is no object: [null] and [undefined]
    throw a [TypeError]; every other value (a number, a text, an array)
    has no quantity and no title and shows [1x Item]. *)
Theorem X16_item_that_is_no_object (item : value) :
  VariantA.item_row item
  = match item with
    | VUndefined | VNull => Throw TypeError
    | VObj f => spec_row (VObj f)
    | _ => Ok (row_markup "1" "Item")
    end.
Proof.
  destruct item; first [apply item_row_spec | reflexivity].
Qed.

(** ** The second decoding *)



Lemma decode_from_no_percent (s : string) :
  has_char "%"%char s = false -> decode_from (mk_dstate DPlain 0 128 191) s = Ok s.
Proof.
  induction s as [|a s IH]; intros H; [reflexivity|].
  cbn [has_char] in H. apply orb_false_iff in H as [Ha Hs].
  cbn [decode_from phase need]. rewrite Ha, (IH Hs). reflexivity.
Qed.




(** X18.  On a parameter without [%] the second decoding changes nothing:
    the handler parses the text as the framework handed it over. *)
Theorem X18_second_decoding_is_idle (s : string) :
  has_char "%"%char s = false -> parse_param (VStr s) = JSON_parse s.
Proof.
  intros H. unfold parse_param, decodeURIComponent. cbn [ToString bind].
  now rewrite decode_from_no_percent.
Qed.

Lemma X18_second_decoding_is_idle_witness :
  parse_param (VStr ("{" ++ q "city" ++ ":" ++ q "Ottawa" ++ "}"))
  = JSON_parse ("{" ++ q "city" ++ ":" ++ q "Ottawa" ++ "}").
Proof.
  apply (X18_second_decoding_is_idle
           ("{" ++ q "city" ++ ":" ++ q "Ottawa" ++ "}") eq_refl).
Defined.

(** ** The customer of variant B *)




Lemma first_token_no_space (s : string) :
  has_char " "%char (VariantB.first_token s) = false.
Proof.
  induction s as [|a s IH]; [reflexivity|]. cbn [VariantB.first_token].
  destruct (Ascii.eqb a " "%char) eqn:E; [reflexivity|].
  cbn [has_char]. now rewrite E, IH.
Qed.

Lemma first_token_split (s : string) :
  s = VariantB.first_token s
  \/ exists rest, s = VariantB.first_token s ++ String " "%char rest.
Proof.
  induction s as [|a s IH]; [now left|]. cbn [VariantB.first_token].
  destruct (Ascii.eqb a " "%char) eqn:E.
  - apply Ascii.eqb_eq in E. subst a. right. now exists s.
  - destruct IH as [IH | [rest IH]].
    + left. now rewrite <- IH.
    + right. exists rest. cbn [append]. now rewrite <- IH.
Qed.

Lemma first_token_prefix (a rest : string) :
  has_char " "%char a = false ->
  VariantB.first_token (a ++ String " "%char rest) = a.
Proof.
  induction a as [|c a IH]; intros H; [reflexivity|].
  cbn [has_char] in H. apply orb_false_iff in H as [Hc Ha].
  cbn [append VariantB.first_token]. now rewrite Hc, IH.
Qed.

(** X20.  Without a [firstName], the first name of variant B is the text
    of [name] before its first space: for a name [a b] with no space in
    [a] it is [a] (the empty text when the name starts with a space), and a
    name without a space is taken whole. *)
Theorem X20_first_name_from_name (f : list (string * value)) (s : string) :
  truthy (field f "firstName") = false ->
  field f "name" = VStr s ->
  s <> "" ->
  VariantB.first_name (VObj f) = Ok (VStr (VariantB.first_token s))
  /\ has_char " "%char (VariantB.first_token s) = false
  /\ (s = VariantB.first_token s
      \/ exists rest, s = VariantB.first_token s ++ String " "%char rest)
  /\ (forall a rest, has_char " "%char a = false ->
                     s = a ++ String " "%char rest ->
                     VariantB.first_token s = a).
Proof.
  intros Hf Hn Hs. split; [|split; [apply first_token_no_space|split]].
  - unfold VariantB.first_name. cbn [Get bind]. rewrite Hf, Hn.
    destruct s; [congruence | reflexivity].
  - apply first_token_split.
  - intros a rest Ha ->. now apply first_token_prefix.
Qed.

Lemma X20_first_name_from_name_witness :
  VariantB.first_name (VObj [("name", VStr "Jane van Doe")]) = Ok (VStr "Jane")
  /\ VariantB.first_name (VObj [("name", VStr " Jane")]) = Ok (VStr "").
Proof.
  split.
  - apply (X20_first_name_from_name [("name", VStr "Jane van Doe")]
             "Jane van Doe" eq_refl eq_refl).
    discriminate.
  - apply (X20_first_name_from_name [("name", VStr " Jane")] " Jane"
             eq_refl eq_refl).
    discriminate.
Defined.

(** ** The logo *)

Lemma base64_char_alphabet (n : nat) : is_base64_char (base64_char n) = true.
Proof.
  unfold base64_char.
  destruct (Nat.ltb n 26) eqn:E1.
  { apply Nat.ltb_lt in E1. do 26 (destruct n as [|n]; [reflexivity|]). lia. }
  destruct (Nat.ltb n 52) eqn:E2.
  { apply Nat.ltb_lt in E2. apply Nat.ltb_ge in E1.
    remember (n - 26) as k eqn:Ek. assert (Hk : k < 26) by lia. clear - Hk.
    do 26 (destruct k as [|k]; [reflexivity|]). lia. }
  destruct (Nat.ltb n 62) eqn:E3.
  { apply Nat.ltb_lt in E3. apply Nat.ltb_ge in E2.
    remember (n - 52) as k eqn:Ek. assert (Hk : k < 10) by lia. clear - Hk.
    do 10 (destruct k as [|k]; [reflexivity|]). lia. }
  now destruct (Nat.eqb n 62).
Qed.

Lemma base64_shape (bytes : list ascii) :
  all_chars is_base64_char (base64 bytes) = true
  /\ String.length (base64 bytes) = 4 * ((List.length bytes + 2) / 3).
Proof.
  remember (List.length bytes) as n eqn:Hn.
  revert bytes Hn. induction n as [n IH] using lt_wf_ind. intros bytes Hn.
  destruct bytes as [|a [|b [|c rest]]].
  - subst n. split; reflexivity.
  - subst n. cbn [base64 all_chars]. rewrite !base64_char_alphabet.
    split; reflexivity.
  - subst n. cbn [base64 all_chars]. rewrite !base64_char_alphabet.
    split; reflexivity.
  - destruct (IH (List.length rest)) with (bytes := rest) as [H1 H2];
      [subst n; simpl; lia | reflexivity |].
    cbn [base64 all_chars String.length]. rewrite !base64_char_alphabet, H1, H2.
    split; [reflexivity|]. subst n. cbn [List.length].
    replace (S (S (S (List.length rest))) + 2) with (List.length rest + 2 + 1 * 3)
      by lia.
    rewrite Nat.div_add by lia. lia.
Qed.

(** X21.  The logo of variant B, whatever the file holds and also when it
    cannot be read: the text put after [base64,] consists of letters,
    digits, [+], [/] and [=] only, so it holds no quote that could end the
    [src] attribute and nothing [escapeHtml] would have to replace; its
    length is four characters for every three bytes of the file, rounded
    up. *)
Theorem X21_logo_is_base64 (file : option (list ascii)) :
  all_chars is_base64_char (load_logo file) = true
  /\ has_char "034"%char (load_logo file) = false
  /\ has_char "&"%char (load_logo file) = false
  /\ (forall c, is_special c = true -> has_char c (load_logo file) = false)
  /\ String.length (load_logo file)
     = match file with
       | Some bytes => 4 * ((List.length bytes + 2) / 3)
       | None => 0
       end.
Proof.
  assert (H : all_chars is_base64_char (load_logo file) = true).
  { destruct file as [bytes|]; [apply base64_shape | reflexivity]. }
  split; [exact H|].
  split; [now apply all_chars_has_char with (f := is_base64_char)|].
  split; [now apply all_chars_has_char with (f := is_base64_char)|].
  split.
  - intros c Hc. apply all_chars_has_char with (f := is_base64_char); [|exact H].
    unfold is_special in Hc.
    repeat (apply orb_true_iff in Hc as [Hc|Hc]);
      apply Ascii.eqb_eq in Hc; subst c; reflexivity.
  - destruct file as [bytes|]; [apply base64_shape | reflexivity].
Qed.

(** ** No script element *)

Lemma script_open_rect (x w : Z) : counted script_open (VariantA.rect x w) 0.
Proof. count_rect. Qed.

Lemma script_open_row (item : value) (r : string) :
  VariantA.item_row item = Ok r -> plain_quantity item -> counted script_open r 0.
Proof. revert item r. count_row. Qed.

Lemma script_open_more (c : Z) :
  (0 < c)%Z -> counted script_open (VariantA.more_items_html c) 0.
Proof. revert c. count_more. Qed.

Lemma script_open_label (o : order) (sa : value) (d items more L : string) (ni nm : nat) :
  VariantA.label o sa d items more = Ok L ->
  has_char "<"%char d = false ->
  counted script_open items ni -> counted script_open more nm ->
  (forall v b, VariantA.generateBarcodeLines v = Ok b -> counted script_open b 0) ->
  counted script_open L (0 + ni + nm).
Proof. revert o sa d items more L ni nm. count_label script_open. Qed.

Lemma script_open_page_break : counted script_open VariantA.page_break 0.
Proof. count_all. Qed.

Lemma script_open_document (title labels : string) (n : nat) :
  has_char "<"%char title = false -> counted script_open labels n ->
  counted script_open (VariantA.document title labels) (0 + n).
Proof. count_document. Qed.

Lemma script_open_document_B (title customer logo d order_name : string) :
  has_char "<"%char title = false -> has_char "<"%char customer = false ->
  has_char "<"%char logo = false -> has_char "<"%char d = false ->
  has_char "<"%char order_name = false ->
  counted script_open (VariantB.document title customer logo d order_name) 0.
Proof. intros. unfold VariantB.document. count_all. Qed.

(** X22.  No script element in a document of variant A, whatever the
    texts of the order, as long as the quantities of the line items print
    without [<] (as numbers do): every other text is escaped. *)
Theorem X22_no_script_element (now : clock) (o : order) (copies : Z)
        (h : string) (l : list value) :
  VariantA.generateThermalLabelHtml now o copies = Ok h ->
  or_else (lineItems o) (VArr []) = VArr l ->
  Forall plain_quantity l ->
  occurrences script_open h = 0 /\ includes script_open h = false.
Proof.
  intros H Hli Hl.
  assert (H0 : occurrences script_open h = 0).
  { rewrite (render_counted script_open 0 0 0 0 0 script_open_rect
               script_open_row script_open_more script_open_label
               script_open_page_break script_open_document now o copies h l
               H Hli Hl).
    unfold more_count. destruct (Nat.ltb 5 (List.length l)); lia. }
  split; [exact H0|]. unfold includes. now rewrite H0.
Qed.

(** An order whose name, recipient and item title are script elements. *)
Lemma X22_no_script_element_witness :
  exists h,
    VariantA.generateThermalLabelHtml sample_clock
      (mk_order VUndefined (VStr "<script>alert(1)</script>")
         (VObj [("name", VStr "<script>alert(2)</script>")])
         (VArr [VObj [("quantity", VInt 2);
                      ("title", VStr "<script>alert(3)</script>")]])) 2
    = Ok h
    /\ includes script_open h = false.
Proof.
  eexists. split; [vm_compute; reflexivity|].
  refine (proj2 (X22_no_script_element sample_clock
             (mk_order VUndefined (VStr "<script>alert(1)</script>")
                (VObj [("name", VStr "<script>alert(2)</script>")])
                (VArr [VObj [("quantity", VInt 2);
                             ("title", VStr "<script>alert(3)</script>")]])) 2
             _ [VObj [("quantity", VInt 2);
                      ("title", VStr "<script>alert(3)</script>")]]
             _ eq_refl _)).
  - vm_compute. reflexivity.
  - constructor; [|constructor]. apply typed_item_plain. reflexivity.
Defined.

(** X23.  No script element in a document of variant B, whatever the
    order and whatever the logo file: every text of the order is
    escaped. *)
Theorem X23_no_script_element_B (file : option (list ascii)) (now : clock)
        (o : order) (h : string) :
  VariantB.generateThermalLabelHtml (load_logo file) now o = Ok h ->
  occurrences script_open h = 0 /\ includes script_open h = false.
Proof.
  intros H.
  assert (H0 : occurrences script_open h = 0).
  { unfold VariantB.generateThermalLabelHtml in H. inv_ok H. subst h.
    apply counted_occurrences.
    apply script_open_document_B;
      try (eapply escapeHtml_no_special; [reflexivity | eassumption]).
    - apply load_logo_no_lt.
    - apply toLocaleDateString_no_lt. }
  split; [exact H0|]. unfold includes. now rewrite H0.
Qed.

Lemma X23_no_script_element_B_witness :
  exists h,
    VariantB.generateThermalLabelHtml (load_logo None) sample_clock
      (mk_order VUndefined (VStr "<script>alert(1)</script>")
         (VObj [("firstName", VStr "<script>alert(2)</script>")]) (VArr []))
    = Ok h
    /\ includes script_open h = false.
Proof.
  eexists. split; [vm_compute; reflexivity|].
  refine (proj2 (X23_no_script_element_B None sample_clock
             (mk_order VUndefined (VStr "<script>alert(1)</script>")
                (VObj [("firstName", VStr "<script>alert(2)</script>")])
                (VArr [])) _ _)).
  vm_compute. reflexivity.
Defined.

(** ** The optional lines of the address *)

Lemma optional_line_counted_once (p : string) (v : value)
      (before after s : string) (k : nat) :
  VariantA.optional_line v before after = Ok s ->
  prefix "<" p = true -> counted p before k -> counted p after 0 ->
  counted p s (if truthy v then k else 0).
Proof.
  intros H Hp Hb Ha. unfold VariantA.optional_line in H.
  destruct (truthy v).
  - inv_ok H. subst s. count_all.
  - apply Ok_inj in H. subst s. apply counted_nil.
Qed.

(** The parts of a label, an optional line counting for what its opening
    tag holds of the marker. *)
Ltac count_lines p barcode_lemma :=
  repeat match goal with
    | E : VariantA.optional_line ?v ?before _ = Ok ?s |- _ =>
        let k := eval vm_compute in (occurrences p before) in
        lazymatch k with
        | 0 =>
            assert (counted p s 0)
              by (eapply optional_line_counted;
                  [exact E | reflexivity | count_all | count_all])
        | _ =>
            assert (counted p s (if truthy v then k else 0))
              by (eapply optional_line_counted_once;
                  [exact E | reflexivity | count_fixed | count_fixed])
        end;
        clear E
    | E : VariantA.generateBarcodeLines _ = Ok ?b |- _ =>
        apply barcode_lemma in E
    end.

Ltac count_address_label pat :=
  let H := fresh "H" in
  let Hd := fresh "Hd" in
  let Hi := fresh "Hi" in
  let Hm := fresh "Hm" in
  let Hb := fresh "Hb" in
  intros ? ? ? ? ? ? ? ? H Hd Hi Hm Hb; unfold VariantA.label in H;
  cbn [Get bind] in H; inv_ok H; subst; count_lines pat Hb; count_all.

Section CountingLines.

(** A marker [p] that only the label holds, as many times as the address
    says. *)
Variable p : string.
Variable n_label : list (string * value) -> nat.

Hypothesis rect_p : forall x w, counted p (VariantA.rect x w) 0.
Hypothesis row_p :
  forall item r, VariantA.item_row item = Ok r -> plain_quantity item ->
                 counted p r 0.
Hypothesis more_p :
  forall c, (0 < c)%Z -> counted p (VariantA.more_items_html c) 0.
Hypothesis label_p :
  forall o f d items more L ni nm,
    VariantA.label o (VObj f) d items more = Ok L ->
    has_char "<"%char d = false ->
    counted p items ni -> counted p more nm ->
    (forall v b, VariantA.generateBarcodeLines v = Ok b -> counted p b 0) ->
    counted p L (n_label f + ni + nm).
Hypothesis sep_p : counted p VariantA.page_break 0.
Hypothesis doc_p :
  forall title labels n,
    has_char "<"%char title = false -> counted p labels n ->
    counted p (VariantA.document title labels) (0 + n).

Lemma render_lines_counted (now : clock) (o : order) (copies : Z) (h : string)
      (f : list (string * value)) (l : list value) :
  VariantA.generateThermalLabelHtml now o copies = Ok h ->
  shippingAddress o = VObj f ->
  or_else (lineItems o) (VArr []) = VArr l ->
  Forall plain_quantity l ->
  occurrences p h = Z.to_nat copies * n_label f.
Proof.
  intros H Hsa Hli Hl. unfold VariantA.generateThermalLabelHtml in H.
  rewrite Hli, Hsa in H. change (or_else (VObj f) (VObj [])) with (VObj f) in H.
  inv_ok H. subst h.
  apply counted_occurrences.
  apply (counted_eq p _ (0 + (Z.to_nat copies * (n_label f + 0 + 0)
                              + (Z.to_nat copies - 1) * 0))).
  - apply doc_p.
    { eapply escapeHtml_no_special; [reflexivity | eassumption]. }
    match goal with
    | E : mapM _ ?slots = Ok ?labels, F : Array_fill _ = Ok ?slots |- _ =>
        apply Array_fill_length in F; rewrite <- F;
        apply mapM_Forall
          with (P := fun L => counted p L (n_label f + 0 + 0)) in E;
        [destruct E as [Hall <-]; apply counted_join; [exact sep_p | exact Hall]|]
    end.
    apply Forall_forall. intros _ _ L HL.
    eapply label_p; [exact HL | apply toLocaleDateString_no_lt | | | ].
    + eapply counted_eq; [eapply (items_html_counted p 0 row_p); eassumption | lia].
    + cbn [VariantA.length_of].
      eapply counted_eq; [apply (more_items_counted p 0 more_p) |].
      unfold more_count. now destruct (Nat.ltb 5 (List.length l)).
    + apply (barcode_counted p rect_p).
  - lia.
Qed.

End CountingLines.

Lemma company_open_rect (x w : Z) : counted company_open (VariantA.rect x w) 0.
Proof. count_rect. Qed.

Lemma company_open_row (item : value) (r : string) :
  VariantA.item_row item = Ok r -> plain_quantity item -> counted company_open r 0.
Proof. revert item r. count_row. Qed.

Lemma company_open_more (c : Z) :
  (0 < c)%Z -> counted company_open (VariantA.more_items_html c) 0.
Proof. revert c. count_more. Qed.

Lemma company_open_label (o : order) (f : list (string * value))
      (d items more L : string) (ni nm : nat) :
  VariantA.label o (VObj f) d items more = Ok L ->
  has_char "<"%char d = false ->
  counted company_open items ni -> counted company_open more nm ->
  (forall v b, VariantA.generateBarcodeLines v = Ok b -> counted company_open b 0) ->
  counted company_open L
    ((if truthy (field f "company") then 1 else 0) + ni + nm).
Proof. revert o f d items more L ni nm. count_address_label company_open. Qed.

Lemma company_open_page_break : counted company_open VariantA.page_break 0.
Proof. count_all. Qed.

Lemma company_open_document (title labels : string) (n : nat) :
  has_char "<"%char title = false -> counted company_open labels n ->
  counted company_open (VariantA.document title labels) (0 + n).
Proof. count_document. Qed.

Lemma street_open_rect (x w : Z) : counted street_open (VariantA.rect x w) 0.
Proof. count_rect. Qed.

Lemma street_open_row (item : value) (r : string) :
  VariantA.item_row item = Ok r -> plain_quantity item -> counted street_open r 0.
Proof. revert item r. count_row. Qed.

Lemma street_open_more (c : Z) :
  (0 < c)%Z -> counted street_open (VariantA.more_items_html c) 0.
Proof. revert c. count_more. Qed.

Lemma street_open_label (o : order) (f : list (string * value))
      (d items more L : string) (ni nm : nat) :
  VariantA.label o (VObj f) d items more = Ok L ->
  has_char "<"%char d = false ->
  counted street_open items ni -> counted street_open more nm ->
  (forall v b, VariantA.generateBarcodeLines v = Ok b -> counted street_open b 0) ->
  counted street_open L
    (1 + (if truthy (field f "address2") then 1 else 0) + ni + nm).
Proof. revert o f d items more L ni nm. count_address_label street_open. Qed.

Lemma street_open_page_break : counted street_open VariantA.page_break 0.
Proof. count_all. Qed.

Lemma street_open_document (title labels : string) (n : nat) :
  has_char "<"%char title = false -> counted street_open labels n ->
  counted street_open (VariantA.document title labels) (0 + n).
Proof. count_document. Qed.

Lemma phone_open_rect (x w : Z) : counted phone_open (VariantA.rect x w) 0.
Proof. count_rect. Qed.

Lemma phone_open_row (item : value) (r : string) :
  VariantA.item_row item = Ok r -> plain_quantity item -> counted phone_open r 0.
Proof. revert item r. count_row. Qed.

Lemma phone_open_more (c : Z) :
  (0 < c)%Z -> counted phone_open (VariantA.more_items_html c) 0.
Proof. revert c. count_more. Qed.

Lemma phone_open_label (o : order) (f : list (string * value))
      (d items more L : string) (ni nm : nat) :
  VariantA.label o (VObj f) d items more = Ok L ->
  has_char "<"%char d = false ->
  counted phone_open items ni -> counted phone_open more nm ->
  (forall v b, VariantA.generateBarcodeLines v = Ok b -> counted phone_open b 0) ->
  counted phone_open L
    ((if truthy (field f "phone") then 1 else 0) + ni + nm).
Proof. revert o f d items more L ni nm. count_address_label phone_open. Qed.

Lemma phone_open_page_break : counted phone_open VariantA.page_break 0.
Proof. count_all. Qed.

Lemma phone_open_document (title labels : string) (n : nat) :
  has_char "<"%char title = false -> counted phone_open labels n ->
  counted phone_open (VariantA.document title labels) (0 + n).
Proof. count_document. Qed.

(** X24.  The optional lines of the address in variant A: every label of
    a rendered document holds the line for the company exactly when
    [company] is truthy, the line for the telephone exactly when [phone]
    is, and one street line for [address1] plus one for [address2] when
    that is truthy. *)
Theorem X24_optional_address_lines (now : clock) (o : order) (copies : Z)
        (h : string) (f : list (string * value)) (l : list value) :
  VariantA.generateThermalLabelHtml now o copies = Ok h ->
  shippingAddress o = VObj f ->
  or_else (lineItems o) (VArr []) = VArr l ->
  Forall plain_quantity l ->
  occurrences company_open h
  = Z.to_nat copies * (if truthy (field f "company") then 1 else 0)
  /\ occurrences street_open h
     = Z.to_nat copies * (1 + (if truthy (field f "address2") then 1 else 0))
  /\ occurrences phone_open h
     = Z.to_nat copies * (if truthy (field f "phone") then 1 else 0).
Proof.
  intros H Hsa Hli Hl. split; [|split].
  - exact (render_lines_counted company_open
             (fun f => if truthy (field f "company") then 1 else 0)
             company_open_rect company_open_row company_open_more
             company_open_label company_open_page_break company_open_document
             now o copies h f l H Hsa Hli Hl).
  - exact (render_lines_counted street_open
             (fun f => 1 + (if truthy (field f "address2") then 1 else 0))
             street_open_rect street_open_row street_open_more
             street_open_label street_open_page_break street_open_document
             now o copies h f l H Hsa Hli Hl).
  - exact (render_lines_counted phone_open
             (fun f => if truthy (field f "phone") then 1 else 0)
             phone_open_rect phone_open_row phone_open_more
             phone_open_label phone_open_page_break phone_open_document
             now o copies h f l H Hsa Hli Hl).
Qed.

(** An address with a company and an empty telephone, two copies. *)
Lemma X24_optional_address_lines_witness :
  exists h,
    VariantA.generateThermalLabelHtml sample_clock
      (mk_order VUndefined (VStr "#1001")
         (VObj [("company", VStr "AD-Bits"); ("phone", VStr "")]) (VArr [])) 2
    = Ok h
    /\ occurrences company_open h = 2
    /\ occurrences street_open h = 2
    /\ occurrences phone_open h = 0.
Proof.
  eexists. split; [vm_compute; reflexivity|].
  refine (X24_optional_address_lines sample_clock
            (mk_order VUndefined (VStr "#1001")
               (VObj [("company", VStr "AD-Bits"); ("phone", VStr "")])
               (VArr [])) 2 _
            [("company", VStr "AD-Bits"); ("phone", VStr "")] []
            _ eq_refl eq_refl (Forall_nil _)).
  vm_compute. reflexivity.
Defined.
